(** * Nuclear waste tracker: decay model, ledger and compliance engine

    A shallow embedding of [src/waste_tracker.py] (class
    [NuclearWasteTracker]) and the properties its specification states.

    Modelling conventions.
    - Python [float] values (activities, volumes, masses, half-lives) are
      idealised as real numbers [R]; [math.log] is [ln] and [0.5 ** x] is
      [Rpower (1/2) x].  Rounding error, underflow, infinities and NaN
      are outside the model.
    - A [datetime] is the number of microseconds since
      0001-01-01T00:00:00, a [timedelta] a signed number of microseconds.
      Both are bounded as in Python, and leaving the range raises
      [OverflowError].  The ISO strings stored in the database are the
      printed form of these values and are not modelled separately.
    - [datetime.now()] is an input: every operation takes the clock
      readings it performs as arguments.
    - The SQLite database is a pair of tables, each a list of rows in
      insertion order.  [str(uuid.uuid4())[:8]] is an input of
      [register_container].
    - [export_csv] and the command line only write files and text; they
      are not modelled. *)

From Stdlib Require Import Reals Lra Lia ZArith List String Bool.
From Stdlib Require Import Rpower Zfloor.
From Stdlib Require Import Sorted Permutation.
Import ListNotations.

Open Scope Z_scope.
Open Scope R_scope.
Open Scope string_scope.

(** ** Exceptions *)

Inductive exn : Set :=
| OverflowError   (* datetime / timedelta out of range *)
| IntegrityError. (* sqlite3: PRIMARY KEY constraint failed *)

Inductive result (A : Type) : Type :=
| Ok (a : A)
| Raise (e : exn).
Arguments Ok {A} a.
Arguments Raise {A} e.

Definition bind {A B} (r : result A) (k : A -> result B) : result B :=
  match r with
  | Ok a => k a
  | Raise e => Raise e
  end.

Notation "x <- r ;; k" := (bind r (fun x => k))
  (at level 61, r at next level, right associativity).

(** ** datetime and timedelta *)

Definition datetime := Z.
Definition timedelta := Z.

Module Datetime.

Definition US_PER_DAY : Z := 86400000000.

(** [date.max.toordinal()], the number of days of the years 1..9999. *)
Definition MAXORDINAL : Z := 3652059.

(** [datetime.max] is 9999-12-31T23:59:59.999999. *)
Definition MAX : datetime := (MAXORDINAL * US_PER_DAY - 1)%Z.

(** [timedelta.max.days] *)
Definition MAX_DELTA_DAYS : Z := 999999999.

Definition valid (d : datetime) : bool := ((0 <=? d) && (d <=? MAX))%Z.

(** The [days] attribute of a normalised timedelta: floor division. *)
Definition days (td : timedelta) : Z := (td / US_PER_DAY)%Z.

(** Construction of a timedelta from a total number of microseconds;
    Python refuses one whose [days] exceeds 999999999 in magnitude. *)
Definition of_us (us : Z) : result timedelta :=
  if ((- MAX_DELTA_DAYS <=? days us) && (days us <=? MAX_DELTA_DAYS))%Z
  then Ok us else Raise OverflowError.

(** [round], to the nearest integer, ties to even. *)
Definition round_half_even (x : R) : Z :=
  let f := Zfloor x in
  let r := x - IZR f in
  if Rlt_dec r (1/2) then f
  else if Rlt_dec (1/2) r then (f + 1)%Z
  else if Z.even f then f else (f + 1)%Z.

(** [timedelta(days=n)] for an [int] n. *)
Definition of_days (n : Z) : result timedelta := of_us (n * US_PER_DAY).

(** [timedelta(days=x)] for a [float] x: the whole and the fractional
    days are converted to microseconds and the rest is rounded to the
    nearest microsecond. *)
Definition of_float_days (x : R) : result timedelta :=
  of_us (round_half_even (x * IZR US_PER_DAY)).

(** [d + td] *)
Definition add (d : datetime) (td : timedelta) : result datetime :=
  if valid (d + td)%Z then Ok (d + td)%Z else Raise OverflowError.

(** [d1 - d2] *)
Definition sub (d1 d2 : datetime) : timedelta := (d1 - d2)%Z.

End Datetime.

(** ** Class constants *)

(** A Python [dict] literal with string keys, read with [.get(key, default)]. *)
Fixpoint dict_get {V} (d : list (string * V)) (k : string) (default : V) : V :=
  match d with
  | [] => default
  | (k', v) :: d' => if String.eqb k' k then v else dict_get d' k default
  end.

(** Half-lives in years *)
Definition HALF_LIVES : list (string * R) :=
  [ ("Cs-137", 30.17);
    ("Co-60", 5.27);
    ("Sr-90", 28.8);
    ("H-3", 12.32);
    ("C-14", 5730);
    ("Pu-239", 24100) ].

(** Storage class limits (activity in Bq) *)
Definition STORAGE_LIMITS : list (string * R) :=
  [ ("low_level", 1e6);
    ("intermediate", 1e9);
    ("high_level", 1e12);
    ("transuranic", 1e6);
    ("exempt", 1e3) ].

(** ** Decay date estimate *)

Definition SAFE_THRESHOLD : R := 1000.

(** [max(...)] over a non-empty generator: the first value, then the
    larger of the running maximum and each next one. *)
Definition py_max (x : R) (xs : list R) : R := fold_left Rmax xs x.

(** [self.HALF_LIVES.get(iso, 1)] *)
Definition half_life (iso : string) : R := dict_get HALF_LIVES iso 1.

(** Calculate when container reaches safe disposal threshold (1 kBq). *)
Definition _calc_decay_date (isotopes : list string) (initial_activity : R)
    (now : datetime) : result datetime :=
  match isotopes with
  | [] =>
      year <- Datetime.of_days 365 ;;
      Datetime.add now year
  | iso :: rest =>
      (* Use longest half-life *)
      let max_half_life := py_max (half_life iso) (map half_life rest) in
      if Rle_dec initial_activity SAFE_THRESHOLD then Ok now
      else
        (* t = t_half * log(A0/A) / log(2) *)
        let years_needed :=
          max_half_life * ln (initial_activity / SAFE_THRESHOLD) / ln 2 in
        delta <- Datetime.of_float_days (years_needed * 365) ;;
        Datetime.add now delta
  end.

(** ** Data model *)

Module WasteContainer.
(** Represents a nuclear waste container: one row of table [containers]. *)
Record t := mk {
  id : string;
  label : string;
  waste_type : string;
  isotopes : list string;   (* stored as a JSON list of isotopes *)
  activity_bq : R;          (* Becquerels *)
  volume_l : R;
  mass_kg : R;
  location : string;
  storage_class : string;
  created_at : datetime;
  decay_date : datetime;    (* Estimated safe decay date *)
  status : string
}.

Definition set_location (c : t) (l : string) : t :=
  mk (id c) (label c) (waste_type c) (isotopes c) (activity_bq c)
     (volume_l c) (mass_kg c) l (storage_class c) (created_at c)
     (decay_date c) (status c).
End WasteContainer.

Module TransferRecord.
(** Represents a transfer of waste container. *)
Record t := mk {
  container_id : string;
  from_location : string;
  to_location : string;
  transferred_by : string;
  ts : datetime;
  manifested : bool
}.
End TransferRecord.

(** The database: table [containers] (primary key [id]) and table
    [transfers], whose rows carry their integer primary key. *)
Record State := mkState {
  containers : list WasteContainer.t;
  transfers : list (Z * TransferRecord.t)
}.

(** [id TEXT PRIMARY KEY]: no two rows of [containers] share an id. *)
Definition primary_key (st : State) : Prop :=
  NoDup (map WasteContainer.id (containers st)).

(** [SELECT ... FROM containers WHERE id = ?] followed by [fetchone()] *)
Definition select_container (st : State) (container_id : string)
  : option WasteContainer.t :=
  find (fun c => String.eqb (WasteContainer.id c) container_id) (containers st).

(** [SELECT ... FROM transfers WHERE id = ?] followed by [fetchone()] *)
Definition select_transfer (st : State) (transfer_id : Z)
  : option TransferRecord.t :=
  option_map snd (find (fun r => Z.eqb (fst r) transfer_id) (transfers st)).

(** The key an [INTEGER PRIMARY KEY AUTOINCREMENT] column gives the next
    row: one more than the largest key in use (no operation deletes rows). *)
Definition next_transfer_id (st : State) : Z :=
  (1 + fold_right Z.max 0 (map fst (transfers st)))%Z.

Definition is_active (c : WasteContainer.t) : bool :=
  String.eqb (WasteContainer.status c) "active".

(** Truth value of a string: only the empty string is false. *)
Definition truthy (s : string) : bool := negb (String.eqb s "").

(** ** Ledger operations *)

(** Register a new waste container.  [created_now] is the clock reading
    that becomes [created_at], [decay_now] the later one made inside
    [_calc_decay_date].  The estimate is computed before the [INSERT], so
    an exception there leaves the table as it was. *)
Definition register_container (st : State) (uuid8 : string)
    (created_now decay_now : datetime)
    (label waste_type : string) (isotopes : list string)
    (activity_bq volume_l mass_kg : R) (location storage_class : string)
  : result (State * string) :=
  let container_id := uuid8 in
  let created_at := created_now in
  (* Estimate decay date *)
  decay_date <- _calc_decay_date isotopes activity_bq decay_now ;;
  match select_container st container_id with
  | Some _ => Raise IntegrityError
  | None =>
      let row := WasteContainer.mk container_id label waste_type isotopes
                   activity_bq volume_l mass_kg location storage_class
                   created_at decay_date "active" in
      Ok (mkState (containers st ++ [row])%list (transfers st), container_id)
  end.

(** Create transfer record. *)
Definition transfer (st : State) (now : datetime)
    (container_id to_location transferred_by : string) : State * bool :=
  match select_container st container_id with
  | None => (st, false)
  | Some row =>
      let from_location := WasteContainer.location row in
      (* Create transfer record *)
      let record := TransferRecord.mk container_id from_location to_location
                      transferred_by now false in
      let transfers' := (transfers st ++ [(next_transfer_id st, record)])%list in
      (* Update container location *)
      let containers' :=
        map (fun c => if String.eqb (WasteContainer.id c) container_id
                      then WasteContainer.set_location c to_location
                      else c) (containers st) in
      (mkState containers' transfers', true)
  end.

(** ** Reachable states *)

(** The database [_init_db] creates: two empty tables. *)
Definition empty_db : State := mkState [] [].

(** One successful registration, or one call of [transfer]. *)
Inductive step : State -> State -> Prop :=
| step_register st st' uuid8 created_now decay_now label waste_type isotopes
    activity_bq volume_l mass_kg location storage_class container_id :
    register_container st uuid8 created_now decay_now label waste_type
      isotopes activity_bq volume_l mass_kg location storage_class
    = Ok (st', container_id) ->
    step st st'
| step_transfer st st' now container_id to_location transferred_by ok :
    transfer st now container_id to_location transferred_by = (st', ok) ->
    step st st'.

Inductive reachable : State -> Prop :=
| reachable_init : reachable empty_db
| reachable_step st st' : reachable st -> step st st' -> reachable st'.

(** What every reachable database satisfies: ids are unique, every
    container is active, and every transfer record is unmanifested and
    refers to a container of the database. *)
Record ledger_invariant (st : State) : Prop := {
  inv_primary_key : primary_key st;
  inv_active : forall c, In c (containers st) -> is_active c = true;
  inv_transfers :
    forall r, In r (transfers st) ->
      TransferRecord.manifested (snd r) = false /\
      exists c, In c (containers st)
                /\ WasteContainer.id c = TransferRecord.container_id (snd r)
}.

(** ** Current activity *)

(** The built-in [sum]: from 0, adding the values from left to right. *)
Definition py_sum (xs : list R) : R := fold_left Rplus xs 0.

(** Recalculate current activity using decay constant. *)
Definition decay_correct (st : State) (now : datetime)
    (container_id : string) : R :=
  match select_container st container_id with
  | None => 0
  | Some row =>
      let isotopes := WasteContainer.isotopes row in
      let initial_activity := WasteContainer.activity_bq row in
      let created_at := WasteContainer.created_at row in
      (* Use average half-life *)
      let avg_half_life :=
        match isotopes with
        | [] => 1
        | _ => py_sum (map half_life isotopes) / INR (List.length isotopes)
        end in
      let elapsed_years :=
        IZR (Datetime.days (Datetime.sub now created_at)) / 365.25 in
      (* A = A0 * (1/2)^(t/t_half) *)
      initial_activity * Rpower 0.5 (elapsed_years / avg_half_life)
  end.

(** ** Reporting *)

(** [if arg: query += " AND column = ?"; params.append(arg)], for an
    argument that is [None] or a string. *)
Definition and_where (query : WasteContainer.t -> bool)
    (column : WasteContainer.t -> string) (arg : option string)
  : WasteContainer.t -> bool :=
  match arg with
  | None => query
  | Some v => if truthy v
              then fun c => query c && String.eqb (column c) v
              else query
  end.

(** Get filtered container inventory. *)
Definition get_inventory (st : State) (location waste_type : option string)
  : list WasteContainer.t :=
  let query := is_active in
  let query := and_where query WasteContainer.location location in
  let query := and_where query WasteContainer.waste_type waste_type in
  filter query (containers st).

(** [SELECT SUM(x)]: NULL over no rows. *)
Definition sql_sum (xs : list R) : option R :=
  match xs with
  | [] => None
  | _ => Some (py_sum xs)
  end.

(** Get total activity at location or globally. *)
Definition total_activity (st : State) (location : option string) : R :=
  let all_active :=
    sql_sum (map WasteContainer.activity_bq
               (filter is_active (containers st))) in
  let result :=
    match location with
    | None => all_active
    | Some l =>
        if truthy l then
          sql_sum (map WasteContainer.activity_bq
            (filter (fun c => String.eqb (WasteContainer.location c) l
                              && is_active c) (containers st)))
        else all_active
    end in
  match result with
  | None => 0
  | Some r => if Req_dec_T r 0 then 0 else r
  end.

(** ** Compliance *)

Module Violation.
Record t := mk {
  container_id : string;
  activity_bq : R;
  limit_bq : R
}.
End Violation.

Record Issues := mkIssues {
  storage_class_violations : list Violation.t;
  expired_containers : list string;
  missing_manifests : list string
}.

(** [self.STORAGE_LIMITS.get(storage_class, 1e6)] *)
Definition storage_limit (storage_class : string) : R :=
  dict_get STORAGE_LIMITS storage_class 1e6.

(** Check storage compliance.  Each list is given in table order; the
    order SQLite returns the ids in is not promised by the query and no
    property below depends on it. *)
Definition compliance_check (st : State) (now : datetime) : Issues :=
  let active := filter is_active (containers st) in
  (* Check storage class limits *)
  let violations :=
    flat_map (fun c =>
      let limit := storage_limit (WasteContainer.storage_class c) in
      if Rlt_dec limit (WasteContainer.activity_bq c)
      then [Violation.mk (WasteContainer.id c) (WasteContainer.activity_bq c) limit]
      else []) active in
  (* Check expired containers; the ISO strings SQLite compares are
     ordered like the dates they print *)
  let expired :=
    map WasteContainer.id
      (filter (fun c => (WasteContainer.decay_date c <? now)%Z && is_active c)
              (containers st)) in
  (* Check missing manifests *)
  let unmanifested :=
    map (fun r => TransferRecord.container_id (snd r))
      (filter (fun r => negb (TransferRecord.manifested (snd r))) (transfers st)) in
  let missing :=
    map WasteContainer.id
      (filter (fun c => existsb (String.eqb (WasteContainer.id c)) unmanifested
                        && is_active c) (containers st)) in
  mkIssues violations expired missing.

(** ** Manifest *)

Module Manifest.
(** The values the manifest template prints, in the order it prints them. *)
Record t := mk {
  generated : datetime;
  container_id : string;
  label : string;
  waste_type : string;
  isotopes : list string;
  activity : R;
  volume : R;
  mass : R;
  from_loc : string;
  to_loc : string;
  transferred_by : string;
  date : datetime;
  transfer_id : Z
}.
End Manifest.

(** What [generate_manifest] returns: the empty string, or the filled
    template. *)
Inductive document :=
| EmptyString
| ManifestText (m : Manifest.t).

(** Generate regulatory manifest document. *)
Definition generate_manifest (st : State) (now : datetime) (transfer_id : Z)
  : document :=
  match select_transfer st transfer_id with
  | None => EmptyString
  | Some transfer =>
      let container_id := TransferRecord.container_id transfer in
      match select_container st container_id with
      | None => EmptyString
      | Some container =>
          ManifestText
            (Manifest.mk now container_id
               (WasteContainer.label container)
               (WasteContainer.waste_type container)
               (WasteContainer.isotopes container)
               (WasteContainer.activity_bq container)
               (WasteContainer.volume_l container)
               (WasteContainer.mass_kg container)
               (TransferRecord.from_location transfer)
               (TransferRecord.to_location transfer)
               (TransferRecord.transferred_by transfer)
               (TransferRecord.ts transfer)
               transfer_id)
      end
  end.

(** ** Decay schedule *)

Module ScheduleEntry.
Record t := mk {
  container_id : string;
  label : string;
  current_activity_bq : R;
  safe_decay_date : datetime;
  days_until_safe : Z
}.
End ScheduleEntry.

(** [ORDER BY decay_date], as an insertion sort of the selected rows.
    Rows with the same date keep their table order; SQL leaves their
    order open and nothing below depends on it. *)
Fixpoint insert_by_decay_date (c : WasteContainer.t)
    (rows : list WasteContainer.t) : list WasteContainer.t :=
  match rows with
  | [] => [c]
  | r :: rows' =>
      if (WasteContainer.decay_date c <=? WasteContainer.decay_date r)%Z
      then c :: r :: rows'
      else r :: insert_by_decay_date c rows'
  end.

Fixpoint order_by_decay_date (rows : list WasteContainer.t)
  : list WasteContainer.t :=
  match rows with
  | [] => []
  | c :: rows' => insert_by_decay_date c (order_by_decay_date rows')
  end.

(** The loop over the fetched rows; it reads the clock once per row:
    [clock i] is the reading made for row number [i]. *)
Fixpoint schedule_entries (rows : list WasteContainer.t)
    (clock : nat -> datetime) (i : nat) : list ScheduleEntry.t :=
  match rows with
  | [] => []
  | c :: rows' =>
      ScheduleEntry.mk (WasteContainer.id c) (WasteContainer.label c)
        (WasteContainer.activity_bq c) (WasteContainer.decay_date c)
        (Datetime.days (Datetime.sub (WasteContainer.decay_date c) (clock i)))
      :: schedule_entries rows' clock (S i)
  end.

(** Get schedule of when containers reach safe threshold. *)
Definition decay_schedule (st : State) (clock : nat -> datetime)
  : list ScheduleEntry.t :=
  let containers :=
    order_by_decay_date (filter is_active (containers st)) in
  schedule_entries containers clock 0.

(** ** The specification's formula for the current activity

    These definitions follow the words of the specification, not the
    code: they are what [decay_correct] is compared with. *)

(** The isotope reference table; unknown identifiers resolve to a
    half-life of 1 year. *)
Definition spec_half_life_of (iso : string) : R :=
  if String.eqb iso "Cs-137" then 30.17
  else if String.eqb iso "Co-60" then 5.27
  else if String.eqb iso "Sr-90" then 28.8
  else if String.eqb iso "H-3" then 12.32
  else if String.eqb iso "C-14" then 5730
  else if String.eqb iso "Pu-239" then 24100
  else 1.

(** The average half-life across the listed isotopes; the empty set
    defaults to 1 year. *)
Definition spec_avg_half_life (isotopes : list string) : R :=
  match isotopes with
  | [] => 1
  | _ => fold_right (fun iso acc => spec_half_life_of iso + acc) 0 isotopes
         / INR (List.length isotopes)
  end.

(** [initial_activity_bq * 0.5^(elapsed_years / avg_half_life)] *)
Definition spec_current_activity (isotopes : list string)
    (initial_activity_bq elapsed_years : R) : R :=
  initial_activity_bq
  * Rpower (1/2) (elapsed_years / spec_avg_half_life isotopes).

(** ** The specification's storage-class limits

    The limits as the specification lists them (in Bq); an unknown storage
    class defaults to the low_level limit. *)
Definition spec_storage_limit (storage_class : string) : R :=
  if String.eqb storage_class "low_level" then 1e6
  else if String.eqb storage_class "intermediate" then 1e9
  else if String.eqb storage_class "high_level" then 1e12
  else if String.eqb storage_class "transuranic" then 1e6
  else if String.eqb storage_class "exempt" then 1e3
  else 1e6.

(** [compliance_check] reports a storage-class violation for the
    container: the list has an entry with its id. *)
Definition reports_violation (issues : Issues) (c : WasteContainer.t) : Prop :=
  exists v, In v (storage_class_violations issues)
            /\ Violation.container_id v = WasteContainer.id c.

(** ** Auxiliary definitions of the statements *)

(** [UPDATE containers SET location = ? WHERE id = ?] on one row. *)
Definition update_location (cid l : string) (c : WasteContainer.t)
  : WasteContainer.t :=
  if String.eqb (WasteContainer.id c) cid
  then WasteContainer.set_location c l else c.

(** ** Sample data *)

(** 2026-11-03T00:00:00 (day 739923 of the calendar). *)
Definition now0 : datetime := (739922 * Datetime.US_PER_DAY)%Z.

(** A row of table [containers]: a drum of caesium and cobalt waste. *)
Definition drum0 : WasteContainer.t :=
  WasteContainer.mk "c0ffee00" "drum" "low_level" ["Cs-137"; "Co-60"]
    5000 200 150 "Vault A" "exempt" now0 now0 "active".

Definition db0 : State := mkState [drum0] [].

(** [db0] after the drum has been moved to another vault. *)
Definition db1 : State :=
  fst (transfer db0 now0 "c0ffee00" "Vault B" "alice").

(** A second container, with an empty location. *)
Definition vial0 : WasteContainer.t :=
  WasteContainer.mk "deadbeef" "vial" "exempt" ["H-3"]
    300 1 1 "" "exempt" now0 now0 "active".

Definition db2 : State := mkState [drum0; vial0] [].

(** A crate registered at [now0] without isotopes, and the database
    after this registration and after a transfer of the crate. *)
Definition crate0 : WasteContainer.t :=
  WasteContainer.mk "0a1b2c3d" "crate" "low_level" [] 2000 50 40 "Dock"
    "low_level" now0 (now0 + 365 * Datetime.US_PER_DAY)%Z "active".

Definition db3 : State := mkState [crate0] [].

Definition db4 : State := fst (transfer db3 now0 "0a1b2c3d" "Vault C" "bob").

(** One gigabecquerel of caesium-137 registered at [now0], with the
    decay date the code estimates for it. *)
Definition caesium_decay_date : datetime :=
  (now0
   + Datetime.round_half_even
       (py_max (half_life "Cs-137") (map half_life [])
        * ln (1e9 / SAFE_THRESHOLD) / ln 2 * 365
        * IZR Datetime.US_PER_DAY))%Z.

(** The decay dates the code estimates at [now0] for 2000 Bq of
    cobalt-60, and for one gigabecquerel of caesium-137 with cobalt-60. *)
Definition cobalt_decay_date : datetime :=
  (now0
   + Datetime.round_half_even
       (py_max (half_life "Co-60") (map half_life [])
        * ln (2000 / SAFE_THRESHOLD) / ln 2 * 365
        * IZR Datetime.US_PER_DAY))%Z.

Definition mixed_decay_date : datetime :=
  (now0
   + Datetime.round_half_even
       (py_max (half_life "Cs-137") (map half_life ["Co-60"])
        * ln (1e9 / SAFE_THRESHOLD) / ln 2 * 365
        * IZR Datetime.US_PER_DAY))%Z.

Definition cask0 : WasteContainer.t :=
  WasteContainer.mk "feedface" "cask" "intermediate" ["Cs-137"] 1e9 10 80
    "Vault A" "intermediate" now0 caesium_decay_date "active".

Definition db5 : State := mkState [cask0] [].

(** * Properties *)

(** ** Arithmetic of [datetime] *)

Section DatetimeFacts.

Import Datetime.

Lemma round_half_even_floor (x : R) :
  round_half_even x = Zfloor x \/ round_half_even x = (Zfloor x + 1)%Z.
Proof.
  unfold round_half_even.
  destruct (Rlt_dec _ _); [now left|].
  destruct (Rlt_dec _ _); [now right|].
  destruct (Z.even _); [now left | now right].
Qed.

Lemma round_half_even_lub (n : Z) (x : R) :
  IZR n <= x -> (n <= round_half_even x)%Z.
Proof.
  intros H. apply Zfloor_lub in H.
  destruct (round_half_even_floor x) as [-> | ->]; lia.
Qed.

Lemma round_half_even_IZR (n : Z) : round_half_even (IZR n) = n.
Proof.
  unfold round_half_even. rewrite ZfloorZ.
  destruct (Rlt_dec _ _) as [_ | H]; [reflexivity | exfalso; apply H; lra].
Qed.

Lemma round_half_even_near (x : R) :
  x - 1/2 <= IZR (round_half_even x) <= x + 1/2.
Proof.
  pose proof (Zfloor_bound x) as Hf. unfold round_half_even.
  destruct (Rlt_dec _ _) as [H1 | H1]; [lra|].
  destruct (Rlt_dec _ _) as [H2 | H2]; [rewrite plus_IZR; lra|].
  destruct (Z.even _); [|rewrite plus_IZR]; lra.
Qed.

Lemma timedelta_of_us_in_range (us : Z) :
  (0 <= us <= MAX)%Z -> of_us us = Ok us.
Proof.
  unfold of_us, days, MAX. intros H.
  assert (H1 : (0 <= us / US_PER_DAY <= MAXORDINAL)%Z).
  { split.
    - apply Z.div_pos; [lia | reflexivity].
    - apply Z.div_le_upper_bound; [reflexivity | lia]. }
  destruct (_ && _) eqn:E; [reflexivity|].
  apply andb_false_iff in E. rewrite !Z.leb_gt in E.
  revert H1 E. unfold MAX_DELTA_DAYS, MAXORDINAL. lia.
Qed.

Lemma timedelta_of_days_365 : of_days 365 = Ok (365 * US_PER_DAY)%Z.
Proof. reflexivity. Qed.

Lemma datetime_add_ok (d : datetime) (td : timedelta) (r : datetime) :
  add d td = Ok r -> r = (d + td)%Z /\ (0 <= r <= MAX)%Z.
Proof.
  unfold add, valid. destruct (_ && _) eqn:E; [|discriminate].
  intros [= <-]. apply andb_true_iff in E. lia.
Qed.

Lemma datetime_add_in_range (d : datetime) (td : timedelta) :
  (0 <= d + td <= MAX)%Z -> add d td = Ok (d + td)%Z.
Proof.
  intros H. unfold add, valid.
  replace (_ && _) with true; [reflexivity|].
  symmetry. apply andb_true_iff. lia.
Qed.

Lemma datetime_add_overflow (d : datetime) (td : timedelta) :
  (MAX < d + td)%Z -> add d td = Raise OverflowError.
Proof.
  intros H. unfold add, valid.
  replace (_ && _) with false; [reflexivity|].
  symmetry. apply andb_false_iff. right. lia.
Qed.

Lemma timedelta_of_us_ok (us : Z) (td : timedelta) : of_us us = Ok td -> td = us.
Proof. unfold of_us. destruct (_ && _); [now intros [= <-] | discriminate]. Qed.

(** A delay of more than the whole calendar cannot be added to any date. *)
Lemma datetime_add_float_days_overflow (now : datetime) (x : R) :
  (0 <= now)%Z -> IZR MAXORDINAL <= x ->
  (delta <- of_float_days x ;; add now delta) = Raise OverflowError.
Proof.
  intros Hnow Hx. unfold of_float_days.
  assert (Hr : (MAXORDINAL * US_PER_DAY <= round_half_even (x * IZR US_PER_DAY))%Z).
  { apply round_half_even_lub. rewrite mult_IZR.
    apply Rmult_le_compat_r; [|exact Hx].
    apply IZR_le. unfold US_PER_DAY. lia. }
  destruct (of_us _) as [td | []] eqn:E; simpl; [|reflexivity|].
  - apply timedelta_of_us_ok in E. subst td. apply datetime_add_overflow. unfold MAX. lia.
  - unfold of_us in E. destruct (_ && _); discriminate.
Qed.

End DatetimeFacts.

(** ** The half-life table *)

Lemma half_life_pos (iso : string) : 0 < half_life iso.
Proof.
  unfold half_life, HALF_LIVES. cbn [dict_get].
  repeat (destruct (String.eqb _ iso); [lra|]). lra.
Qed.

Lemma py_max_ge (x : R) (xs : list R) : x <= py_max x xs.
Proof.
  unfold py_max. revert x.
  induction xs as [|y ys IH]; intros x; simpl; [lra|].
  apply Rle_trans with (Rmax x y); [apply Rmax_l | apply IH].
Qed.

Lemma py_max_upper (x : R) (xs : list R) (y : R) :
  In y (x :: xs) -> y <= py_max x xs.
Proof.
  unfold py_max. revert x.
  induction xs as [|z zs IH]; intros x; simpl.
  - intros [-> | []]. lra.
  - intros [-> | [-> | H]].
    + apply Rle_trans with (Rmax y z); [apply Rmax_l | apply (py_max_ge _ zs)].
    + apply Rle_trans with (Rmax x y); [apply Rmax_r | apply (py_max_ge _ zs)].
    + apply IH. now right.
Qed.

Lemma py_max_in (x : R) (xs : list R) : In (py_max x xs) (x :: xs).
Proof.
  unfold py_max. revert x.
  induction xs as [|z zs IH]; intros x; simpl; [now left|].
  destruct (IH (Rmax x z)) as [H | H].
  - rewrite <- H. unfold Rmax. destruct (Rle_dec x z); auto.
  - now right; right.
Qed.

Lemma max_half_life_pos (iso : string) (rest : list string) :
  0 < py_max (half_life iso) (map half_life rest).
Proof.
  apply Rlt_le_trans with (half_life iso);
    [apply half_life_pos | apply py_max_ge].
Qed.

(** ** Decay date estimate *)

Lemma ln_2_pos : 0 < ln 2.
Proof. rewrite <- ln_1. apply ln_increasing; lra. Qed.

Lemma ln_monotone (x y : R) : 0 < x -> x <= y -> ln x <= ln y.
Proof.
  intros Hx [H | ->]; [left; now apply ln_increasing | right; reflexivity].
Qed.

(** Rational bounds on a binary logarithm, from a comparison of integer
    powers. *)
Lemma ln_ratio_lower (p q : nat) (x : R) :
  0 < x -> (0 < q)%nat -> 2 ^ p <= x ^ q -> INR p / INR q <= ln x / ln 2.
Proof.
  intros Hx Hq H.
  pose proof ln_2_pos as H2.
  assert (Hq' : 0 < INR q) by now apply lt_0_INR.
  apply ln_monotone in H; [|apply pow_lt; lra].
  rewrite !ln_pow in H by lra.
  apply Rmult_le_reg_r with (INR q * ln 2); [nra|].
  field_simplify; [|lra|lra]. lra.
Qed.

Lemma ln_ratio_upper (p q : nat) (x : R) :
  0 < x -> (0 < q)%nat -> x ^ q <= 2 ^ p -> ln x / ln 2 <= INR p / INR q.
Proof.
  intros Hx Hq H.
  pose proof ln_2_pos as H2.
  assert (Hq' : 0 < INR q) by now apply lt_0_INR.
  apply ln_monotone in H; [|apply pow_lt; lra].
  rewrite !ln_pow in H by lra.
  apply Rmult_le_reg_r with (INR q * ln 2); [nra|].
  field_simplify; [|lra|lra]. lra.
Qed.

(** [log(1e6) / log(2)] is 19.93 to two decimals. *)
Lemma log2_million : 19.93 <= ln 1e6 / ln 2 <= 19.94.
Proof.
  split.
  - apply Rle_trans with (INR 1993 / INR 100).
    + rewrite !INR_IZR_INZ. simpl. lra.
    + apply ln_ratio_lower; [lra | lia |].
      replace 1e6 with (IZR 1000000) by lra.
      rewrite !pow_IZR. apply IZR_le. vm_compute. discriminate.
  - apply Rle_trans with (INR 1994 / INR 100).
    + apply ln_ratio_upper; [lra | lia |].
      replace 1e6 with (IZR 1000000) by lra.
      rewrite !pow_IZR. apply IZR_le. vm_compute. discriminate.
    + rewrite !INR_IZR_INZ. simpl. lra.
Qed.

(** Above the threshold the number of years needed is not negative. *)
Lemma years_needed_nonneg (h a : R) :
  0 < h -> SAFE_THRESHOLD < a -> 0 <= h * ln (a / SAFE_THRESHOLD) / ln 2.
Proof.
  unfold SAFE_THRESHOLD. intros Hh Ha.
  assert (H1 : 0 < ln (a / 1000)).
  { rewrite <- ln_1. apply ln_increasing; lra. }
  pose proof ln_2_pos.
  apply Rmult_le_pos; [apply Rmult_le_pos; lra|].
  left. now apply Rinv_0_lt_compat.
Qed.

(** From twice the threshold on, at least one half-life is needed. *)
Lemma years_needed_half_life (h a : R) :
  0 < h -> 2 * SAFE_THRESHOLD <= a -> h <= h * ln (a / SAFE_THRESHOLD) / ln 2.
Proof.
  unfold SAFE_THRESHOLD. intros Hh Ha.
  pose proof ln_2_pos as H2.
  assert (H1 : ln 2 <= ln (a / 1000)) by (apply ln_monotone; lra).
  assert (Hq : 1 <= ln (a / 1000) / ln 2).
  { apply Rmult_le_reg_r with (ln 2); [exact H2|].
    unfold Rdiv. rewrite Rmult_assoc, Rinv_l; lra. }
  replace (h * ln (a / 1000) / ln 2) with (h * (ln (a / 1000) / ln 2))
    by (unfold Rdiv; ring).
  nra.
Qed.

(** Whenever a date is returned, it is not before [now]. *)
Lemma _calc_decay_date_ge_now (isotopes : list string) (a : R)
    (now r : datetime) :
  _calc_decay_date isotopes a now = Ok r -> (now <= r)%Z.
Proof.
  unfold _calc_decay_date. destruct isotopes as [|iso rest].
  - rewrite timedelta_of_days_365. simpl. intros H.
    apply datetime_add_ok in H. unfold Datetime.US_PER_DAY in H. lia.
  - destruct (Rle_dec a SAFE_THRESHOLD) as [_ | Ha]; [intros [= <-]; lia|].
    unfold Datetime.of_float_days.
    destruct (Datetime.of_us _) as [td | e] eqn:E; simpl; [|discriminate].
    intros H. apply datetime_add_ok in H. destruct H as [-> _].
    apply timedelta_of_us_ok in E. subst td.
    assert (0 <= Datetime.round_half_even
                   (py_max (half_life iso) (map half_life rest)
                    * ln (a / SAFE_THRESHOLD) / ln 2 * 365
                    * IZR Datetime.US_PER_DAY))%Z; [|lia].
    apply round_half_even_lub.
    pose proof (years_needed_nonneg _ a (max_half_life_pos iso rest)).
    apply Rmult_le_pos; [apply Rmult_le_pos; lra|].
    apply IZR_le. unfold Datetime.US_PER_DAY. lia.
Qed.

(** Above the threshold a date is returned whenever the estimate fits
    the calendar, and it is [now] plus the years needed, to the nearest
    microsecond. *)
Lemma _calc_decay_date_in_range (iso : string) (rest : list string) (a : R)
    (now : datetime) :
  let years_needed :=
    py_max (half_life iso) (map half_life rest)
    * ln (a / SAFE_THRESHOLD) / ln 2 in
  let us := years_needed * 365 * IZR Datetime.US_PER_DAY in
  SAFE_THRESHOLD < a -> (0 <= now)%Z ->
  IZR now + us + 1/2 <= IZR Datetime.MAX ->
  _calc_decay_date (iso :: rest) a now
  = Ok (now + Datetime.round_half_even us)%Z.
Proof.
  intros years_needed us Ha Hnow Hfit. unfold _calc_decay_date.
  destruct (Rle_dec a SAFE_THRESHOLD) as [H | _]; [lra|].
  fold years_needed. unfold Datetime.of_float_days. fold us.
  assert (H0 : (0 <= Datetime.round_half_even us)%Z).
  { apply round_half_even_lub. unfold us.
    pose proof (years_needed_nonneg _ a (max_half_life_pos iso rest) Ha).
    fold years_needed in H.
    apply Rmult_le_pos; [apply Rmult_le_pos; lra|].
    apply IZR_le. unfold Datetime.US_PER_DAY. lia. }
  assert (H1 : (now + Datetime.round_half_even us <= Datetime.MAX)%Z).
  { apply le_IZR. rewrite plus_IZR.
    pose proof (round_half_even_near us). lra. }
  rewrite timedelta_of_us_in_range by lia. simpl.
  apply datetime_add_in_range. lia.
Qed.

(** The specification's example: one gigabecquerel of caesium-137
    registered on 2026-11-03 is safe between 601.28 and 601.60 years
    (of 365 days) later. *)
Example caesium_gigabecquerel :
  exists r, _calc_decay_date ["Cs-137"] 1e9 now0 = Ok r /\
    (now0 + 219470 * Datetime.US_PER_DAY <= r
     <= now0 + 219581 * Datetime.US_PER_DAY)%Z.
Proof.
  pose proof log2_million as [Hlo Hhi].
  assert (Hh : py_max (half_life "Cs-137") (map half_life []) = 30.17).
  { unfold py_max, half_life, HALF_LIVES. simpl. reflexivity. }
  assert (Hy : py_max (half_life "Cs-137") (map half_life [])
               * ln (1e9 / SAFE_THRESHOLD) / ln 2
               = 30.17 * (ln 1e6 / ln 2)).
  { rewrite Hh. unfold SAFE_THRESHOLD.
    replace (1e9 / 1000) with 1e6 by lra. unfold Rdiv. ring. }
  assert (HUS : IZR Datetime.US_PER_DAY = 86400000000) by reflexivity.
  assert (Hnow : IZR now0 = 739922 * 86400000000).
  { unfold now0. rewrite mult_IZR, HUS. reflexivity. }
  assert (HMAX : IZR Datetime.MAX = 3652059 * 86400000000 - 1).
  { unfold Datetime.MAX. rewrite minus_IZR, mult_IZR, HUS. reflexivity. }
  eexists. split.
  - apply _calc_decay_date_in_range.
    + unfold SAFE_THRESHOLD. lra.
    + vm_compute. discriminate.
    + rewrite Hy, HUS, Hnow, HMAX. nra.
  - rewrite Hy. split.
    + apply Z.add_le_mono_l. apply round_half_even_lub.
      rewrite mult_IZR, HUS. nra.
    + apply Z.add_le_mono_l. apply le_IZR.
      pose proof (round_half_even_near
                    (30.17 * (ln 1e6 / ln 2) * 365 * IZR Datetime.US_PER_DAY)).
      rewrite mult_IZR, HUS in *. nra.
Qed.

(** C1 (as stated, refuted): with an empty isotope list an activity below
    the threshold does not give [now] but one year later. *)
Lemma calc_decay_date_safe_but_empty :
  0 <= 500 <= 1000 /\
  _calc_decay_date [] 500 now0 = Ok (now0 + 365 * Datetime.US_PER_DAY)%Z /\
  _calc_decay_date [] 500 now0 <> Ok now0.
Proof.
  split; [lra|]. split; [reflexivity|]. discriminate.
Qed.

(** C1 (amended): for every non-negative activity of at most 1000 Bq and
    every non-empty isotope list, [_calc_decay_date] returns [now]. *)
Theorem calc_decay_date_already_safe (isotopes : list string) (a : R)
    (now : datetime) :
  isotopes <> [] -> 0 <= a -> a <= 1000 ->
  _calc_decay_date isotopes a now = Ok now.
Proof.
  intros Hne _ Ha. unfold _calc_decay_date.
  destruct isotopes as [|iso rest]; [contradiction|].
  destruct (Rle_dec a SAFE_THRESHOLD) as [_ | H]; [reflexivity|].
  unfold SAFE_THRESHOLD in H. contradiction.
Qed.

Lemma calc_decay_date_already_safe_witness :
  _calc_decay_date ["Cs-137"; "unknown"] 1000 now0 = Ok now0.
Proof.
  apply (calc_decay_date_already_safe ["Cs-137"; "unknown"] 1000 now0);
    [discriminate | lra | lra].
Defined.

(** C2: for every initial activity, with an empty isotope list
    [_calc_decay_date] returns [now] plus 365 days ([now] being a date
    from which 365 days can be added, which holds for every clock reading
    before the year 9999). *)
Theorem calc_decay_date_no_isotopes (a : R) (now : datetime) :
  (0 <= now <= Datetime.MAX - 365 * Datetime.US_PER_DAY)%Z ->
  _calc_decay_date [] a now = Ok (now + 365 * Datetime.US_PER_DAY)%Z.
Proof.
  intros H. unfold _calc_decay_date.
  rewrite timedelta_of_days_365. simpl.
  apply datetime_add_in_range. unfold Datetime.US_PER_DAY in *. lia.
Qed.

Lemma calc_decay_date_no_isotopes_witness :
  _calc_decay_date [] 1e12 now0 = Ok (now0 + 365 * Datetime.US_PER_DAY)%Z.
Proof.
  apply (calc_decay_date_no_isotopes 1e12 now0). vm_compute.
  split; discriminate.
Defined.

(** For plutonium-239 above twice the threshold no date is returned: the
    estimate lies beyond the last representable year. *)
Lemma calc_decay_date_plutonium_overflow (a : R) (now : datetime) :
  (0 <= now)%Z -> 2000 <= a ->
  _calc_decay_date ["Pu-239"] a now = Raise OverflowError.
Proof.
  intros Hnow Ha. unfold _calc_decay_date.
  destruct (Rle_dec a SAFE_THRESHOLD) as [H | _];
    [unfold SAFE_THRESHOLD in H; lra|].
  apply datetime_add_float_days_overflow; [exact Hnow|].
  assert (Hh : py_max (half_life "Pu-239") (map half_life []) = 24100).
  { unfold py_max, half_life, HALF_LIVES. simpl. reflexivity. }
  rewrite Hh.
  assert (H := years_needed_half_life 24100 a).
  unfold SAFE_THRESHOLD in *. unfold Datetime.MAXORDINAL.
  lra.
Qed.

(** C4 (evaluation at the failing input): one gigabecquerel of
    plutonium-239 registered on 2026-11-03 has no decay date, the call
    raises [OverflowError]. *)
Theorem calc_decay_date_raises :
  _calc_decay_date ["Pu-239"] 1e9 now0 = Raise OverflowError.
Proof.
  apply calc_decay_date_plutonium_overflow; [vm_compute; discriminate | lra].
Qed.

(** ** Current activity *)

Lemma half_life_spec (iso : string) : half_life iso = spec_half_life_of iso.
Proof.
  unfold half_life, spec_half_life_of, HALF_LIVES. cbn [dict_get].
  repeat (rewrite (String.eqb_sym _ iso); destruct (String.eqb iso _);
          [reflexivity|]).
  reflexivity.
Qed.

Lemma fold_left_Rplus (xs : list R) (a : R) :
  fold_left Rplus xs a = a + fold_right Rplus 0 xs.
Proof.
  revert a. induction xs as [|x xs IH]; intros a; simpl; [ring|].
  rewrite IH. ring.
Qed.

Lemma sum_half_lives (isotopes : list string) :
  py_sum (map half_life isotopes)
  = fold_right (fun iso acc => spec_half_life_of iso + acc) 0 isotopes.
Proof.
  unfold py_sum. rewrite fold_left_Rplus, Rplus_0_l.
  induction isotopes as [|iso rest IH]; simpl; [reflexivity|].
  now rewrite IH, half_life_spec.
Qed.

Lemma select_container_In (st : State) (cid : string) (c : WasteContainer.t) :
  select_container st cid = Some c ->
  In c (containers st) /\ WasteContainer.id c = cid.
Proof.
  unfold select_container. intros H. apply find_some in H.
  destruct H as [Hin Heq]. split; [exact Hin|]. now apply String.eqb_eq.
Qed.

Lemma select_container_None (st : State) (cid : string) :
  select_container st cid = None <->
  (forall c, In c (containers st) -> WasteContainer.id c <> cid).
Proof.
  unfold select_container. split.
  - intros H c Hin Heq.
    apply (find_none _ _ H) in Hin. apply String.eqb_eq in Heq. congruence.
  - intros H. destruct (find _ _) as [c|] eqn:E; [|reflexivity].
    apply find_some in E. destruct E as [Hin Heq].
    apply String.eqb_eq in Heq. now apply H in Hin.
Qed.

(** C3: for an existing container [decay_correct] is the specification's
    formula [initial * 0.5^(elapsed_years / avg_half_life)], with the
    average half-life of the listed isotopes (unknown ones counting 1
    year, the empty list giving 1 year) and the elapsed years counted
    from the whole days since [created_at]; when no whole day has elapsed
    the result is the initial activity itself. *)
Theorem decay_correct_formula (st : State) (now : datetime)
    (container_id : string) (c : WasteContainer.t) :
  select_container st container_id = Some c ->
  let elapsed_years :=
    IZR ((now - WasteContainer.created_at c) / Datetime.US_PER_DAY) / 365.25 in
  decay_correct st now container_id
  = spec_current_activity (WasteContainer.isotopes c)
      (WasteContainer.activity_bq c) elapsed_years
  /\ (elapsed_years = 0 ->
      decay_correct st now container_id = WasteContainer.activity_bq c).
Proof.
  intros Hc elapsed_years. unfold decay_correct. rewrite Hc.
  assert (Havg : match WasteContainer.isotopes c with
                 | [] => 1
                 | _ :: _ => py_sum (map half_life (WasteContainer.isotopes c))
                             / INR (List.length (WasteContainer.isotopes c))
                 end = spec_avg_half_life (WasteContainer.isotopes c)).
  { unfold spec_avg_half_life.
    destruct (WasteContainer.isotopes c) as [|iso rest] eqn:E; [reflexivity|].
    now rewrite sum_half_lives. }
  rewrite Havg. unfold Datetime.days, Datetime.sub.
  fold elapsed_years. split.
  - unfold spec_current_activity. do 2 f_equal. lra.
  - intros ->. unfold Rdiv at 1. rewrite Rmult_0_l.
    rewrite Rpower_O by lra. ring.
Qed.

Lemma decay_correct_formula_witness :
  decay_correct db0 now0 "c0ffee00" = 5000.
Proof.
  apply (decay_correct_formula db0 now0 "c0ffee00" drum0);
    [reflexivity|].
  cbn [drum0 WasteContainer.created_at]. rewrite Z.sub_diag, Zdiv_0_l.
  unfold Rdiv. apply Rmult_0_l.
Defined.

(** The worst-case estimate and the current reading use different
    half-lives: for caesium-137 with cobalt-60 the average is 17.72 years
    and the maximum 30.17 years. *)
Example average_is_not_maximum :
  spec_avg_half_life ["Cs-137"; "Co-60"] = 17.72 /\
  py_max (half_life "Cs-137") (map half_life ["Co-60"]) = 30.17.
Proof.
  split.
  - unfold spec_avg_half_life, spec_half_life_of. simpl. lra.
  - unfold py_max, half_life, HALF_LIVES. simpl.
    unfold Rmax. destruct (Rle_dec _ _); lra.
Qed.

(** ** The primary key of [containers] *)

Lemma NoDup_map_injective {A B} (f : A -> B) (l : list A) (x y : A) :
  NoDup (map f l) -> In x l -> In y l -> f x = f y -> x = y.
Proof.
  induction l as [|a l IH]; simpl; [contradiction|].
  intros Hnd Hx Hy Hf. inversion Hnd as [|? ? Hnotin Hnd']; subst.
  destruct Hx as [-> | Hx], Hy as [-> | Hy]; auto.
  - exfalso. apply Hnotin. rewrite Hf. now apply in_map.
  - exfalso. apply Hnotin. rewrite <- Hf. now apply in_map.
Qed.

Lemma primary_key_select (st : State) (c : WasteContainer.t) :
  primary_key st -> In c (containers st) ->
  select_container st (WasteContainer.id c) = Some c.
Proof.
  intros Hpk Hin.
  destruct (select_container st (WasteContainer.id c)) as [c'|] eqn:E.
  - apply select_container_In in E. destruct E as [Hin' Heq].
    f_equal. exact (NoDup_map_injective _ _ _ _ Hpk Hin' Hin Heq).
  - rewrite select_container_None in E. now apply E in Hin.
Qed.

Lemma register_container_primary_key (st st' : State) (uuid8 : string)
    (t1 t2 : datetime) (label waste_type : string) (isotopes : list string)
    (a v m : R) (location storage_class cid : string) :
  primary_key st ->
  register_container st uuid8 t1 t2 label waste_type isotopes a v m
    location storage_class = Ok (st', cid) ->
  primary_key st'.
Proof.
  unfold register_container, primary_key. intros Hpk.
  destruct (_calc_decay_date _ _ _) as [d | e]; simpl; [|discriminate].
  destruct (select_container st uuid8) eqn:E; [discriminate|].
  intros [= <- <-]. simpl. rewrite map_app. simpl.
  rewrite select_container_None in E.
  apply NoDup_app; [exact Hpk | repeat constructor; auto |].
  intros x Hx [<- | []]. apply in_map_iff in Hx.
  destruct Hx as [c [Hid Hin]]. now apply E in Hin.
Qed.

Lemma transfer_primary_key (st st' : State) (now : datetime)
    (cid to_location by_ : string) (ok : bool) :
  primary_key st -> transfer st now cid to_location by_ = (st', ok) ->
  primary_key st'.
Proof.
  unfold transfer, primary_key. intros Hpk.
  destruct (select_container st cid); intros [= <- <-]; [|exact Hpk].
  simpl. rewrite map_map.
  erewrite map_ext; [exact Hpk|].
  intros c. now destruct (String.eqb _ _).
Qed.

(** ** Compliance: storage class limits *)

Lemma storage_limit_spec (storage_class : string) :
  storage_limit storage_class = spec_storage_limit storage_class.
Proof.
  unfold storage_limit, spec_storage_limit, STORAGE_LIMITS. cbn [dict_get].
  repeat (rewrite (String.eqb_sym _ storage_class);
          destruct (String.eqb storage_class _); [reflexivity|]).
  reflexivity.
Qed.

(** Every entry of the violation list comes from an active container
    whose stored activity exceeds the limit of its storage class, and
    carries that activity and that limit. *)
Lemma storage_class_violations_In (st : State) (now : datetime)
    (v : Violation.t) :
  In v (storage_class_violations (compliance_check st now)) <->
  exists c, In c (containers st) /\ is_active c = true
    /\ storage_limit (WasteContainer.storage_class c) < WasteContainer.activity_bq c
    /\ v = Violation.mk (WasteContainer.id c) (WasteContainer.activity_bq c)
             (storage_limit (WasteContainer.storage_class c)).
Proof.
  unfold compliance_check. cbn [storage_class_violations].
  rewrite in_flat_map. split.
  - intros [c [Hc Hv]]. apply filter_In in Hc. destruct Hc as [Hin Hact].
    destruct (Rlt_dec _ _) as [Hlt | _]; [|destruct Hv].
    destruct Hv as [<- | []]. now exists c.
  - intros [c [Hin [Hact [Hlt ->]]]]. exists c. split.
    + apply filter_In. now split.
    + destruct (Rlt_dec _ _) as [_ | Hn]; [now left | contradiction].
Qed.

(** The clock plays no part in the storage-class check. *)
Lemma storage_class_violations_now (st : State) (now now' : datetime) :
  storage_class_violations (compliance_check st now)
  = storage_class_violations (compliance_check st now').
Proof. reflexivity. Qed.

(** C5: for every active container, [compliance_check] reports a
    storage-class violation exactly when the stored [activity_bq] is
    strictly greater than the limit of its [storage_class] (low_level 1e6,
    intermediate 1e9, high_level 1e12, transuranic 1e6, exempt 1e3, any
    other class 1e6). *)
Theorem compliance_check_storage_class (st : State) (now : datetime)
    (c : WasteContainer.t) :
  primary_key st -> In c (containers st) -> is_active c = true ->
  (reports_violation (compliance_check st now) c <->
   WasteContainer.activity_bq c
   > spec_storage_limit (WasteContainer.storage_class c)).
Proof.
  intros Hpk Hin Hact. unfold reports_violation.
  rewrite <- storage_limit_spec. split.
  - intros [v [Hv Hid]]. apply storage_class_violations_In in Hv.
    destruct Hv as [c' [Hin' [_ [Hlt ->]]]]. cbn in Hid.
    assert (c' = c) by exact (NoDup_map_injective _ _ _ _ Hpk Hin' Hin Hid).
    subst c'. exact Hlt.
  - intros Hlt. eexists. split.
    + apply storage_class_violations_In. exists c. repeat split; auto.
    + reflexivity.
Qed.

Lemma compliance_check_storage_class_witness :
  reports_violation (compliance_check db0 now0) drum0 <->
  WasteContainer.activity_bq drum0
  > spec_storage_limit (WasteContainer.storage_class drum0).
Proof.
  apply (compliance_check_storage_class db0 now0 drum0).
  - repeat constructor. simpl. tauto.
  - simpl. now left.
  - reflexivity.
Defined.

(** The specification's example: 5000 Bq in an exempt store is flagged. *)
Example exempt_5000_is_flagged :
  reports_violation (compliance_check db0 now0) drum0.
Proof.
  exists (Violation.mk "c0ffee00" 5000 1e3). split; [|reflexivity].
  apply storage_class_violations_In. exists drum0.
  split; [now left|]. split; [reflexivity|].
  split; [|reflexivity].
  rewrite storage_limit_spec. unfold spec_storage_limit. simpl. lra.
Qed.

(** ** Transfer *)

(** C6: a transfer of an id that no container has returns [False] and
    leaves both tables as they were. *)
Theorem transfer_unknown_container (st : State) (now : datetime)
    (container_id to_location transferred_by : string) :
  (forall c, In c (containers st) -> WasteContainer.id c <> container_id) ->
  transfer st now container_id to_location transferred_by = (st, false).
Proof.
  intros H. apply select_container_None in H.
  unfold transfer. now rewrite H.
Qed.

Lemma transfer_unknown_container_witness :
  transfer db0 now0 "deadbeef" "Vault B" "alice" = (db0, false).
Proof.
  apply (transfer_unknown_container db0 now0 "deadbeef" "Vault B" "alice").
  intros c [<- | []]. discriminate.
Defined.

Lemma map_fixes {A} (f : A -> A) (l : list A) :
  (forall x, In x l -> f x = x) -> map f l = l.
Proof.
  induction l as [|a l IH]; simpl; intros H; [reflexivity|].
  rewrite H by now left. rewrite IH; [reflexivity|].
  intros x Hx. apply H. now right.
Qed.

(** [UPDATE containers SET location = ? WHERE id = ?] under the primary
    key: the one row with that id is rewritten in place. *)
Lemma update_location_split (cs : list WasteContainer.t) (cid l : string)
    (c : WasteContainer.t) :
  NoDup (map WasteContainer.id cs) -> In c cs -> WasteContainer.id c = cid ->
  exists before after,
    cs = (before ++ c :: after)%list /\
    map (fun x => if String.eqb (WasteContainer.id x) cid
                  then WasteContainer.set_location x l else x) cs
    = (before ++ WasteContainer.set_location c l :: after)%list.
Proof.
  intros Hnd Hin Hid. apply in_split in Hin.
  destruct Hin as [before [after ->]]. exists before, after.
  split; [reflexivity|].
  rewrite map_app in Hnd. simpl in Hnd. apply NoDup_remove_2 in Hnd.
  rewrite map_app. simpl. rewrite Hid, String.eqb_refl.
  assert (Hother : forall x, In x (before ++ after)%list ->
            (if String.eqb (WasteContainer.id x) cid
             then WasteContainer.set_location x l else x) = x).
  { intros x Hx. destruct (String.eqb _ _) eqn:E; [|reflexivity].
    exfalso. apply Hnd. apply String.eqb_eq in E. rewrite Hid, <- E.
    rewrite <- map_app. now apply in_map. }
  rewrite !map_fixes; [reflexivity | |];
    intros x Hx; apply Hother, in_or_app; auto.
Qed.

(** C7: a successful transfer rewrites one row of [containers], keeping
    every field of it but [location], which becomes [to_location]; all
    other rows stay as they are; and it appends one transfer record, with
    the previous location as [from_location] and [manifested] false. *)
Theorem transfer_success (st st' : State) (now : datetime)
    (container_id to_location transferred_by : string) :
  primary_key st ->
  transfer st now container_id to_location transferred_by = (st', true) ->
  exists before c c' after key record,
    containers st = (before ++ c :: after)%list /\
    containers st' = (before ++ c' :: after)%list /\
    WasteContainer.id c = container_id /\
    WasteContainer.location c' = to_location /\
    WasteContainer.id c' = WasteContainer.id c /\
    WasteContainer.label c' = WasteContainer.label c /\
    WasteContainer.waste_type c' = WasteContainer.waste_type c /\
    WasteContainer.isotopes c' = WasteContainer.isotopes c /\
    WasteContainer.activity_bq c' = WasteContainer.activity_bq c /\
    WasteContainer.volume_l c' = WasteContainer.volume_l c /\
    WasteContainer.mass_kg c' = WasteContainer.mass_kg c /\
    WasteContainer.storage_class c' = WasteContainer.storage_class c /\
    WasteContainer.created_at c' = WasteContainer.created_at c /\
    WasteContainer.decay_date c' = WasteContainer.decay_date c /\
    WasteContainer.status c' = WasteContainer.status c /\
    transfers st' = (transfers st ++ [(key, record)])%list /\
    TransferRecord.container_id record = container_id /\
    TransferRecord.from_location record = WasteContainer.location c /\
    TransferRecord.to_location record = to_location /\
    TransferRecord.transferred_by record = transferred_by /\
    TransferRecord.ts record = now /\
    TransferRecord.manifested record = false.
Proof.
  intros Hpk. unfold transfer.
  destruct (select_container st container_id) as [c|] eqn:E;
    [|discriminate].
  intros [= <-]. apply select_container_In in E. destruct E as [Hin Hid].
  destruct (update_location_split _ _ to_location _ Hpk Hin Hid)
    as [before [after [Hcs Hupd]]].
  exists before, c, (WasteContainer.set_location c to_location), after.
  eexists. eexists. cbn [containers transfers].
  split; [exact Hcs|]. split; [exact Hupd|].
  repeat (split; [reflexivity || exact Hid|]). reflexivity.
Qed.

Lemma transfer_success_witness :
  exists before c c' after key record,
    containers db0 = (before ++ c :: after)%list /\
    containers (fst (transfer db0 now0 "c0ffee00" "Vault B" "alice"))
    = (before ++ c' :: after)%list /\
    WasteContainer.id c = "c0ffee00" /\
    WasteContainer.location c' = "Vault B" /\
    WasteContainer.id c' = WasteContainer.id c /\
    WasteContainer.label c' = WasteContainer.label c /\
    WasteContainer.waste_type c' = WasteContainer.waste_type c /\
    WasteContainer.isotopes c' = WasteContainer.isotopes c /\
    WasteContainer.activity_bq c' = WasteContainer.activity_bq c /\
    WasteContainer.volume_l c' = WasteContainer.volume_l c /\
    WasteContainer.mass_kg c' = WasteContainer.mass_kg c /\
    WasteContainer.storage_class c' = WasteContainer.storage_class c /\
    WasteContainer.created_at c' = WasteContainer.created_at c /\
    WasteContainer.decay_date c' = WasteContainer.decay_date c /\
    WasteContainer.status c' = WasteContainer.status c /\
    transfers (fst (transfer db0 now0 "c0ffee00" "Vault B" "alice"))
    = (transfers db0 ++ [(key, record)])%list /\
    TransferRecord.container_id record = "c0ffee00" /\
    TransferRecord.from_location record = WasteContainer.location c /\
    TransferRecord.to_location record = "Vault B" /\
    TransferRecord.transferred_by record = "alice" /\
    TransferRecord.ts record = now0 /\
    TransferRecord.manifested record = false.
Proof.
  apply (transfer_success db0 _ now0 "c0ffee00" "Vault B" "alice").
  - repeat constructor. simpl. tauto.
  - reflexivity.
Defined.

(** ** Negative activity *)

(** C8 (as stated, refuted): an activity of -5 Bq is neither rejected by
    the estimate nor by the registration, which stores the container. *)
Lemma negative_activity_is_accepted :
  -5 < 0 /\
  _calc_decay_date ["Cs-137"] (-5) now0 = Ok now0 /\
  register_container empty_db "c0ffee00" now0 now0 "drum" "low_level"
    ["Cs-137"] (-5) 200 150 "Vault A" "low_level"
  = Ok (mkState
          [WasteContainer.mk "c0ffee00" "drum" "low_level" ["Cs-137"] (-5)
             200 150 "Vault A" "low_level" now0 now0 "active"] [],
        "c0ffee00").
Proof.
  assert (H : _calc_decay_date ["Cs-137"] (-5) now0 = Ok now0).
  { unfold _calc_decay_date.
    destruct (Rle_dec (-5) SAFE_THRESHOLD) as [_ | H]; [reflexivity|].
    unfold SAFE_THRESHOLD in H. lra. }
  split; [lra|]. split; [exact H|].
  unfold register_container. rewrite H. reflexivity.
Qed.

(** C8 (amended): a negative activity is not rejected.  With at least one
    isotope the estimate is [now], and a registration under an unused id
    stores the container with the negative activity and [now] as decay
    date; with no isotope the estimate is [now] plus 365 days. *)
Theorem negative_activity_not_rejected (st : State) (uuid8 : string)
    (created_now now : datetime) (label waste_type iso : string)
    (rest : list string) (a v m : R) (location storage_class : string) :
  a < 0 ->
  (forall c, In c (containers st) -> WasteContainer.id c <> uuid8) ->
  _calc_decay_date (iso :: rest) a now = Ok now /\
  register_container st uuid8 created_now now label waste_type (iso :: rest)
    a v m location storage_class
  = Ok (mkState
          (containers st
           ++ [WasteContainer.mk uuid8 label waste_type (iso :: rest) a v m
                 location storage_class created_now now "active"])%list
          (transfers st), uuid8) /\
  ((0 <= now <= Datetime.MAX - 365 * Datetime.US_PER_DAY)%Z ->
   _calc_decay_date [] a now = Ok (now + 365 * Datetime.US_PER_DAY)%Z).
Proof.
  intros Ha Hfresh. apply select_container_None in Hfresh.
  assert (H : _calc_decay_date (iso :: rest) a now = Ok now).
  { unfold _calc_decay_date.
    destruct (Rle_dec a SAFE_THRESHOLD) as [_ | H]; [reflexivity|].
    unfold SAFE_THRESHOLD in H. lra. }
  split; [exact H|]. split.
  - unfold register_container. rewrite H. simpl. now rewrite Hfresh.
  - intros Hnow. unfold _calc_decay_date.
    rewrite timedelta_of_days_365. simpl.
    apply datetime_add_in_range. unfold Datetime.US_PER_DAY in *. lia.
Qed.

Lemma negative_activity_not_rejected_witness :
  _calc_decay_date ["H-3"] (-1) now0 = Ok now0 /\
  register_container db0 "deadbeef" now0 now0 "vial" "exempt" ["H-3"]
    (-1) 1 1 "Lab" "exempt"
  = Ok (mkState
          (containers db0
           ++ [WasteContainer.mk "deadbeef" "vial" "exempt" ["H-3"] (-1) 1 1
                 "Lab" "exempt" now0 now0 "active"])%list
          (transfers db0), "deadbeef") /\
  ((0 <= now0 <= Datetime.MAX - 365 * Datetime.US_PER_DAY)%Z ->
   _calc_decay_date [] (-1) now0 = Ok (now0 + 365 * Datetime.US_PER_DAY)%Z).
Proof.
  apply (negative_activity_not_rejected db0 "deadbeef" now0 now0 "vial"
           "exempt" "H-3" [] (-1) 1 1 "Lab" "exempt").
  - lra.
  - intros c [<- | []]. discriminate.
Defined.

(** ** Manifest *)

Lemma select_transfer_None (st : State) (transfer_id : Z) :
  select_transfer st transfer_id = None <->
  (forall r, In r (transfers st) -> fst r <> transfer_id).
Proof.
  unfold select_transfer. split.
  - intros H r Hin Heq. destruct (find _ _) eqn:E; [discriminate|].
    apply (find_none _ _ E) in Hin. apply Z.eqb_neq in Hin. contradiction.
  - intros H. destruct (find _ _) as [r|] eqn:E; [|reflexivity].
    apply find_some in E. destruct E as [Hin Heq].
    apply Z.eqb_eq in Heq. now apply H in Hin.
Qed.

Lemma select_transfer_In (st : State) (transfer_id : Z)
    (t : TransferRecord.t) :
  select_transfer st transfer_id = Some t -> In (transfer_id, t) (transfers st).
Proof.
  unfold select_transfer. destruct (find _ _) as [[k t']|] eqn:E;
    [|discriminate].
  intros [= <-]. apply find_some in E. destruct E as [Hin Heq].
  apply Z.eqb_eq in Heq. simpl in Heq. now subst k.
Qed.

(** C9: [generate_manifest] returns the empty string exactly when no
    transfer has the id or the container of that transfer is missing;
    otherwise the document joins the transfer record with the label,
    waste type, isotopes, activity, volume and mass of its container. *)
Theorem generate_manifest_join (st : State) (now : datetime)
    (transfer_id : Z) :
  ((forall r, In r (transfers st) -> fst r <> transfer_id) ->
   generate_manifest st now transfer_id = EmptyString) /\
  (forall t, select_transfer st transfer_id = Some t ->
     (forall c, In c (containers st) ->
        WasteContainer.id c <> TransferRecord.container_id t) ->
     generate_manifest st now transfer_id = EmptyString) /\
  (forall t c, select_transfer st transfer_id = Some t ->
     select_container st (TransferRecord.container_id t) = Some c ->
     generate_manifest st now transfer_id
     = ManifestText
         (Manifest.mk now (TransferRecord.container_id t)
            (WasteContainer.label c) (WasteContainer.waste_type c)
            (WasteContainer.isotopes c) (WasteContainer.activity_bq c)
            (WasteContainer.volume_l c) (WasteContainer.mass_kg c)
            (TransferRecord.from_location t) (TransferRecord.to_location t)
            (TransferRecord.transferred_by t) (TransferRecord.ts t)
            transfer_id)) /\
  (generate_manifest st now transfer_id = EmptyString ->
   select_transfer st transfer_id = None \/
   exists t, select_transfer st transfer_id = Some t /\
             select_container st (TransferRecord.container_id t) = None).
Proof.
  unfold generate_manifest. repeat split.
  - intros H. apply select_transfer_None in H. now rewrite H.
  - intros t Ht H. apply select_container_None in H. now rewrite Ht, H.
  - intros t c Ht Hc. now rewrite Ht, Hc.
  - destruct (select_transfer st transfer_id) as [t|]; [|now left].
    destruct (select_container st _) eqn:E; [discriminate|].
    intros _. right. now exists t.
Qed.

Lemma generate_manifest_join_witness :
  generate_manifest db1 now0 1
  = ManifestText
      (Manifest.mk now0 "c0ffee00" "drum" "low_level" ["Cs-137"; "Co-60"]
         5000 200 150 "Vault A" "Vault B" "alice" now0 1) /\
  generate_manifest db1 now0 2 = EmptyString.
Proof.
  split.
  - apply (proj1 (proj2 (proj2 (generate_manifest_join db1 now0 1)))
             (TransferRecord.mk "c0ffee00" "Vault A" "Vault B" "alice" now0
                false)
             (WasteContainer.set_location drum0 "Vault B"));
      reflexivity.
  - apply (proj1 (generate_manifest_join db1 now0 2)).
    intros r [<- | []]. discriminate.
Defined.

(** ** Empty-string filters *)

Lemma and_where_empty (query : WasteContainer.t -> bool)
    (column : WasteContainer.t -> string) :
  and_where query column (Some "") = and_where query column None.
Proof. reflexivity. Qed.

(** C10: an empty-string [location] (or [waste_type]) is no filter at
    all: [get_inventory] returns what it returns without that argument,
    all active containers when both are empty, and [total_activity]
    returns what it returns without a location, which is the global
    total: the sum of the [activity_bq] of all active containers,
    whatever their location. *)
Theorem empty_string_is_no_filter (st : State) :
  (forall waste_type,
     get_inventory st (Some "") waste_type = get_inventory st None waste_type) /\
  (forall location,
     get_inventory st location (Some "") = get_inventory st location None) /\
  get_inventory st (Some "") (Some "") = filter is_active (containers st) /\
  get_inventory st None None = filter is_active (containers st) /\
  total_activity st (Some "") = total_activity st None /\
  total_activity st (Some "")
  = py_sum (map WasteContainer.activity_bq (filter is_active (containers st))).
Proof.
  do 5 (split; [reflexivity|]).
  unfold total_activity. change (truthy "") with false. cbv beta iota zeta.
  destruct (map WasteContainer.activity_bq (filter is_active (containers st)))
    as [|x xs]; [reflexivity|].
  unfold sql_sum.
  destruct (Req_dec_T (py_sum (x :: xs)) 0) as [E | _];
    [now rewrite E | reflexivity].
Qed.

(** The drum in "Vault A" is listed, and counted, under the location "",
    although only the vial has that location. *)
Example empty_location_lists_everything :
  get_inventory db2 (Some "") None = [drum0; vial0] /\
  total_activity db2 (Some "") = 5300 /\
  total_activity db2 (Some "Vault A") = 5000.
Proof.
  split; [reflexivity|].
  unfold total_activity, db2. cbn -[Req_dec_T Rplus].
  split; destruct (Req_dec_T _ _); lra.
Qed.

(** ** Reachable databases *)

Lemma update_location_id (cid l : string) (c : WasteContainer.t) :
  WasteContainer.id (if String.eqb (WasteContainer.id c) cid
                     then WasteContainer.set_location c l else c)
  = WasteContainer.id c.
Proof. now destruct (String.eqb _ _). Qed.

Lemma update_location_active (cid l : string) (c : WasteContainer.t) :
  is_active (if String.eqb (WasteContainer.id c) cid
             then WasteContainer.set_location c l else c)
  = is_active c.
Proof. now destruct (String.eqb _ _). Qed.

Lemma step_invariant (st st' : State) :
  ledger_invariant st -> step st st' -> ledger_invariant st'.
Proof.
  intros [Hpk Hact Htr] Hstep.
  destruct Hstep as [st st' uuid8 t1 t2 lbl wt isos a v m loc sc cid Hreg
                    | st st' now cid to_ by_ ok Htf].
  - split.
    + exact (register_container_primary_key _ _ _ _ _ _ _ _ _ _ _ _ _ _
               Hpk Hreg).
    + unfold register_container in Hreg.
      destruct (_calc_decay_date _ _ _); simpl in Hreg; [|discriminate].
      destruct (select_container st uuid8); [discriminate|].
      injection Hreg as <- _. simpl. intros c Hc.
      apply in_app_or in Hc. destruct Hc as [Hc | [<- | []]]; auto.
    + unfold register_container in Hreg.
      destruct (_calc_decay_date _ _ _); simpl in Hreg; [|discriminate].
      destruct (select_container st uuid8); [discriminate|].
      injection Hreg as <- _. simpl. intros r Hr.
      destruct (Htr r Hr) as [Hm [c [Hc Hid]]]. split; [exact Hm|].
      exists c. split; [apply in_or_app; now left | exact Hid].
  - split.
    + exact (transfer_primary_key _ _ _ _ _ _ _ Hpk Htf).
    + unfold transfer in Htf.
      destruct (select_container st cid); injection Htf as <- _; [|exact Hact].
      simpl. intros c Hc. apply in_map_iff in Hc.
      destruct Hc as [c0 [<- Hc0]]. rewrite update_location_active. auto.
    + unfold transfer in Htf.
      destruct (select_container st cid) as [row|] eqn:E;
        injection Htf as <- _; [|exact Htr].
      apply select_container_In in E. destruct E as [Hrow Hid].
      simpl. intros r Hr. apply in_app_or in Hr.
      destruct Hr as [Hr | [<- | []]].
      * destruct (Htr r Hr) as [Hm [c [Hc Hcid]]]. split; [exact Hm|].
        eexists. split; [apply in_map; exact Hc|].
        now rewrite update_location_id.
      * split; [reflexivity|]. simpl.
        eexists. split; [apply in_map; exact Hrow|].
        now rewrite update_location_id.
Qed.

Lemma reachable_invariant (st : State) : reachable st -> ledger_invariant st.
Proof.
  induction 1 as [|st st' _ IH Hstep].
  - split; simpl; [constructor | contradiction | contradiction].
  - exact (step_invariant _ _ IH Hstep).
Qed.

(** In a reachable database the container of a transfer record is never
    missing: the second not-found exit of [generate_manifest] is not taken. *)
Lemma reachable_transfer_has_container (st : State) (transfer_id : Z)
    (t : TransferRecord.t) :
  reachable st -> select_transfer st transfer_id = Some t ->
  exists c, select_container st (TransferRecord.container_id t) = Some c.
Proof.
  intros Hr Ht. apply reachable_invariant in Hr.
  destruct Hr as [Hpk _ Htr]. apply select_transfer_In in Ht.
  destruct (Htr _ Ht) as [_ [c [Hc Hid]]]. simpl in Hid.
  exists c. rewrite <- Hid. now apply primary_key_select.
Qed.

(** * Further properties of the code *)

(** ** The decay date estimate *)

Lemma round_half_even_le (x y : R) :
  x <= y -> (Datetime.round_half_even x <= Datetime.round_half_even y)%Z.
Proof.
  intros Hxy. pose proof (Zfloor_le _ _ Hxy) as Hf.
  destruct (Z.eq_dec (Zfloor x) (Zfloor y)) as [E | E].
  - unfold Datetime.round_half_even. rewrite E.
    destruct (Rlt_dec (x - IZR (Zfloor y)) (1/2)) as [H1 | H1].
    + repeat destruct (Rlt_dec _ _); try destruct (Z.even _); lia.
    + destruct (Rlt_dec (1/2) (x - IZR (Zfloor y))) as [H2 | H2].
      * destruct (Rlt_dec (y - IZR (Zfloor y)) (1/2)); [lra|].
        destruct (Rlt_dec (1/2) (y - IZR (Zfloor y))); [lia | lra].
      * destruct (Rlt_dec (y - IZR (Zfloor y)) (1/2)); [lra|].
        destruct (Rlt_dec (1/2) (y - IZR (Zfloor y)));
          destruct (Z.even _); lia.
  - destruct (round_half_even_floor x) as [-> | ->],
             (round_half_even_floor y) as [-> | ->]; lia.
Qed.

Lemma calc_decay_date_below (iso : string) (rest : list string) (a : R)
    (now : datetime) :
  a <= SAFE_THRESHOLD -> _calc_decay_date (iso :: rest) a now = Ok now.
Proof.
  intros Ha. unfold _calc_decay_date.
  destruct (Rle_dec a SAFE_THRESHOLD); [reflexivity | contradiction].
Qed.

(** The longest half-life of a list is not above that of a list holding
    all its isotopes. *)
Lemma max_half_life_incl (iso1 iso2 : string) (rest1 rest2 : list string) :
  incl (iso1 :: rest1) (iso2 :: rest2) ->
  py_max (half_life iso1) (map half_life rest1)
  <= py_max (half_life iso2) (map half_life rest2).
Proof.
  intros Hincl. apply py_max_upper.
  pose proof (py_max_in (half_life iso1) (map half_life rest1)) as Hin.
  change (In (py_max (half_life iso1) (map half_life rest1))
             (map half_life (iso1 :: rest1))) in Hin.
  apply in_map_iff in Hin. destruct Hin as [iso [<- Hiso]].
  change (In (half_life iso) (map half_life (iso2 :: rest2))).
  apply in_map, Hincl, Hiso.
Qed.

(** X1: whenever [_calc_decay_date] returns a date, that date is not
    before [now], whatever the isotopes and the activity (negative
    included). *)
Theorem calc_decay_date_not_before_now (isotopes : list string) (a : R)
    (now r : datetime) :
  _calc_decay_date isotopes a now = Ok r -> (now <= r)%Z.
Proof. apply _calc_decay_date_ge_now. Qed.

Lemma calc_decay_date_not_before_now_witness :
  (now0 <= now0 + 365 * Datetime.US_PER_DAY)%Z.
Proof.
  apply (calc_decay_date_not_before_now [] 5 now0). reflexivity.
Defined.

(** X2: for isotope lists that are not empty, the estimate is monotone:
    a larger activity, or a list that holds all isotopes of the other,
    never gives an earlier date. *)
Theorem calc_decay_date_monotone (iso1 iso2 : string)
    (rest1 rest2 : list string) (a1 a2 : R) (now r1 r2 : datetime) :
  incl (iso1 :: rest1) (iso2 :: rest2) -> a1 <= a2 ->
  _calc_decay_date (iso1 :: rest1) a1 now = Ok r1 ->
  _calc_decay_date (iso2 :: rest2) a2 now = Ok r2 ->
  (r1 <= r2)%Z.
Proof.
  intros Hincl Ha H1 H2.
  destruct (Rle_dec a1 SAFE_THRESHOLD) as [Hlow | Hhigh].
  - rewrite calc_decay_date_below in H1 by exact Hlow.
    injection H1 as <-. exact (_calc_decay_date_ge_now _ _ _ _ H2).
  - apply Rnot_le_lt in Hhigh. unfold _calc_decay_date in H1, H2.
    destruct (Rle_dec a1 SAFE_THRESHOLD); [unfold SAFE_THRESHOLD in *; lra|].
    destruct (Rle_dec a2 SAFE_THRESHOLD); [unfold SAFE_THRESHOLD in *; lra|].
    unfold Datetime.of_float_days in H1, H2.
    destruct (Datetime.of_us _) as [d1|] eqn:E1 in H1; [|discriminate].
    destruct (Datetime.of_us _) as [d2|] eqn:E2 in H2; [|discriminate].
    simpl in H1, H2.
    apply datetime_add_ok in H1, H2. destruct H1 as [-> _], H2 as [-> _].
    apply timedelta_of_us_ok in E1, E2. subst d1 d2.
    apply Z.add_le_mono_l, round_half_even_le.
    pose proof (max_half_life_incl _ _ _ _ Hincl) as Hh.
    pose proof (max_half_life_pos iso1 rest1) as Hpos.
    pose proof ln_2_pos as Hl2.
    assert (HL : 0 < ln (a1 / SAFE_THRESHOLD) <= ln (a2 / SAFE_THRESHOLD)).
    { unfold SAFE_THRESHOLD in *. split.
      - rewrite <- ln_1. apply ln_increasing; lra.
      - apply ln_monotone; lra. }
    apply Rmult_le_compat_r; [apply IZR_le; unfold Datetime.US_PER_DAY; lia|].
    apply Rmult_le_compat_r; [lra|].
    apply Rmult_le_compat_r; [left; now apply Rinv_0_lt_compat|].
    apply Rmult_le_compat; lra.
Qed.

(** Two estimates above the threshold that are returned: 2000 Bq of
    cobalt-60 (one half-life, 5.27 years), and one gigabecquerel of
    caesium-137 with cobalt-60 (about 601 years). *)
Lemma cobalt_estimate :
  _calc_decay_date ["Co-60"] 2000 now0 = Ok cobalt_decay_date.
Proof.
  assert (Hy : py_max (half_life "Co-60") (map half_life [])
               * ln (2000 / SAFE_THRESHOLD) / ln 2 = 5.27).
  { assert (Hh : py_max (half_life "Co-60") (map half_life []) = 5.27).
    { unfold py_max, half_life, HALF_LIVES. simpl. reflexivity. }
    rewrite Hh. unfold SAFE_THRESHOLD.
    replace (2000 / 1000) with 2 by lra.
    pose proof ln_2_pos. field. lra. }
  assert (HUS : IZR Datetime.US_PER_DAY = 86400000000) by reflexivity.
  assert (Hnow : IZR now0 = 739922 * 86400000000).
  { unfold now0. rewrite mult_IZR, HUS. reflexivity. }
  assert (HMAX : IZR Datetime.MAX = 3652059 * 86400000000 - 1).
  { unfold Datetime.MAX. rewrite minus_IZR, mult_IZR, HUS. reflexivity. }
  unfold cobalt_decay_date. apply _calc_decay_date_in_range.
  - unfold SAFE_THRESHOLD. lra.
  - vm_compute. discriminate.
  - rewrite Hy, HUS, Hnow, HMAX. lra.
Qed.

Lemma mixed_estimate :
  _calc_decay_date ["Cs-137"; "Co-60"] 1e9 now0 = Ok mixed_decay_date.
Proof.
  pose proof log2_million as [Hlo Hhi].
  assert (Hy : py_max (half_life "Cs-137") (map half_life ["Co-60"])
               * ln (1e9 / SAFE_THRESHOLD) / ln 2
               = 30.17 * (ln 1e6 / ln 2)).
  { assert (Hh : py_max (half_life "Cs-137") (map half_life ["Co-60"])
                 = 30.17).
    { unfold py_max, half_life, HALF_LIVES. simpl.
      unfold Rmax. destruct (Rle_dec _ _); lra. }
    rewrite Hh. unfold SAFE_THRESHOLD.
    replace (1e9 / 1000) with 1e6 by lra. unfold Rdiv. ring. }
  assert (HUS : IZR Datetime.US_PER_DAY = 86400000000) by reflexivity.
  assert (Hnow : IZR now0 = 739922 * 86400000000).
  { unfold now0. rewrite mult_IZR, HUS. reflexivity. }
  assert (HMAX : IZR Datetime.MAX = 3652059 * 86400000000 - 1).
  { unfold Datetime.MAX. rewrite minus_IZR, mult_IZR, HUS. reflexivity. }
  unfold mixed_decay_date. apply _calc_decay_date_in_range.
  - unfold SAFE_THRESHOLD. lra.
  - vm_compute. discriminate.
  - rewrite Hy, HUS, Hnow, HMAX. nra.
Qed.

Lemma calc_decay_date_monotone_witness :
  (cobalt_decay_date <= mixed_decay_date)%Z.
Proof.
  apply (calc_decay_date_monotone "Co-60" "Cs-137" [] ["Co-60"] 2000 1e9
           now0 cobalt_decay_date mixed_decay_date).
  - intros x [<- | []]. right. now left.
  - lra.
  - exact cobalt_estimate.
  - exact mixed_estimate.
Defined.

(** X3: the estimate depends only on which isotopes are listed, not on
    their order or on repetitions: two lists with the same members give
    the same result, exceptions included. *)
Theorem calc_decay_date_same_members (isotopes1 isotopes2 : list string)
    (a : R) (now : datetime) :
  incl isotopes1 isotopes2 -> incl isotopes2 isotopes1 ->
  _calc_decay_date isotopes1 a now = _calc_decay_date isotopes2 a now.
Proof.
  intros H12 H21.
  destruct isotopes1 as [|iso1 rest1], isotopes2 as [|iso2 rest2].
  - reflexivity.
  - destruct (H21 iso2). now left.
  - destruct (H12 iso1). now left.
  - unfold _calc_decay_date.
    replace (py_max (half_life iso2) (map half_life rest2))
      with (py_max (half_life iso1) (map half_life rest1)); [reflexivity|].
    apply Rle_antisym; now apply max_half_life_incl.
Qed.

Lemma calc_decay_date_same_members_witness :
  _calc_decay_date ["Cs-137"; "Co-60"] 1e9 now0
  = _calc_decay_date ["Co-60"; "Cs-137"; "Co-60"] 1e9 now0.
Proof.
  apply (calc_decay_date_same_members ["Cs-137"; "Co-60"]
           ["Co-60"; "Cs-137"; "Co-60"] 1e9 now0).
  - intros x [<- | [<- | []]]; simpl; auto.
  - intros x [<- | [<- | [<- | []]]]; simpl; auto.
Defined.

(** Any list holding plutonium-239 has a longest half-life of at least
    24100 years. *)
Lemma max_half_life_plutonium (iso : string) (rest : list string) :
  In "Pu-239" (iso :: rest) ->
  24100 <= py_max (half_life iso) (map half_life rest).
Proof.
  intros Hin. apply py_max_upper.
  change (In 24100 (map half_life (iso :: rest))).
  apply in_map_iff. exists "Pu-239". split; [|exact Hin].
  unfold half_life, HALF_LIVES. simpl. reflexivity.
Qed.

(** ** Registration *)

Lemma find_over_app {A} (f : A -> bool) (l1 l2 : list A) :
  find f (l1 ++ l2)%list
  = match find f l1 with Some x => Some x | None => find f l2 end.
Proof.
  induction l1 as [|a l1 IH]; simpl; [reflexivity|].
  now destruct (f a).
Qed.

(** What a successful registration did. *)
Lemma register_container_inv (st st' : State) (uuid8 : string)
    (created_now decay_now : datetime) (label waste_type : string)
    (isotopes : list string) (a v m : R) (location storage_class cid : string) :
  register_container st uuid8 created_now decay_now label waste_type isotopes
    a v m location storage_class = Ok (st', cid) ->
  exists d,
    _calc_decay_date isotopes a decay_now = Ok d /\
    select_container st uuid8 = None /\
    cid = uuid8 /\
    st' = mkState
            (containers st
             ++ [WasteContainer.mk uuid8 label waste_type isotopes a v m
                   location storage_class created_now d "active"])%list
            (transfers st).
Proof.
  unfold register_container.
  destruct (_calc_decay_date isotopes a decay_now) as [d | e]; simpl;
    [|discriminate].
  destruct (select_container st uuid8) eqn:E; [discriminate|].
  intros [= <- <-]. now exists d.
Qed.

(** X4: waste that lists plutonium-239 with an activity of 2000 Bq or
    more cannot be registered: whatever the database, the other isotopes
    and the clock, [register_container] raises [OverflowError] and
    stores nothing. *)
Theorem register_container_plutonium (st : State) (uuid8 : string)
    (created_now decay_now : datetime) (label waste_type : string)
    (isotopes : list string) (a v m : R) (location storage_class : string) :
  In "Pu-239" isotopes -> 2000 <= a -> (0 <= decay_now)%Z ->
  register_container st uuid8 created_now decay_now label waste_type isotopes
    a v m location storage_class = Raise OverflowError.
Proof.
  intros Hin Ha Hnow. unfold register_container.
  destruct isotopes as [|iso rest]; [destruct Hin|].
  assert (H : _calc_decay_date (iso :: rest) a decay_now
              = Raise OverflowError); [|now rewrite H].
  unfold _calc_decay_date.
  destruct (Rle_dec a SAFE_THRESHOLD) as [H | _];
    [unfold SAFE_THRESHOLD in H; lra|].
  apply datetime_add_float_days_overflow; [exact Hnow|].
  pose proof (max_half_life_plutonium iso rest Hin) as Hh.
  assert (H := years_needed_half_life
                 (py_max (half_life iso) (map half_life rest)) a).
  unfold SAFE_THRESHOLD in *. unfold Datetime.MAXORDINAL.
  lra.
Qed.

Lemma register_container_plutonium_witness :
  register_container db0 "deadbeef" now0 now0 "cask" "transuranic"
    ["Cs-137"; "Pu-239"] 2000 10 80 "Vault A" "transuranic"
  = Raise OverflowError.
Proof.
  apply (register_container_plutonium db0 "deadbeef" now0 now0 "cask"
           "transuranic" ["Cs-137"; "Pu-239"] 2000 10 80 "Vault A"
           "transuranic").
  - right. now left.
  - lra.
  - vm_compute. discriminate.
Defined.

(** X5: after a successful registration the returned id looks up the
    new row, which carries the arguments, status "active", the first
    clock reading as [created_at] and the estimate as [decay_date]; the
    id was unused before, every other id looks up what it did, and the
    transfers are untouched. *)
Theorem register_container_lookup (st st' : State) (uuid8 : string)
    (created_now decay_now : datetime) (label waste_type : string)
    (isotopes : list string) (a v m : R) (location storage_class cid : string) :
  register_container st uuid8 created_now decay_now label waste_type isotopes
    a v m location storage_class = Ok (st', cid) ->
  cid = uuid8 /\
  select_container st cid = None /\
  (exists d,
     _calc_decay_date isotopes a decay_now = Ok d /\
     select_container st' cid
     = Some (WasteContainer.mk uuid8 label waste_type isotopes a v m
               location storage_class created_now d "active")) /\
  (forall other, other <> cid ->
     select_container st' other = select_container st other) /\
  transfers st' = transfers st.
Proof.
  intros H. apply register_container_inv in H.
  destruct H as [d [Hd [Hfresh [-> ->]]]].
  split; [reflexivity|]. split; [exact Hfresh|].
  unfold select_container in *. cbn [containers transfers].
  split; [|split; [|reflexivity]].
  - exists d. split; [exact Hd|].
    rewrite find_over_app, Hfresh. simpl. now rewrite String.eqb_refl.
  - intros other Hother. rewrite find_over_app.
    destruct (find (fun c => String.eqb (WasteContainer.id c) other)
                   (containers st)); [reflexivity|].
    simpl. apply String.eqb_neq in Hother.
    rewrite String.eqb_sym in Hother. now rewrite Hother.
Qed.

Lemma register_container_lookup_witness :
  "0a1b2c3d" = "0a1b2c3d" /\
  select_container empty_db "0a1b2c3d" = None /\
  (exists d,
     _calc_decay_date [] 2000 now0 = Ok d /\
     select_container db3 "0a1b2c3d"
     = Some (WasteContainer.mk "0a1b2c3d" "crate" "low_level" [] 2000 50 40
               "Dock" "low_level" now0 d "active")) /\
  (forall other, other <> "0a1b2c3d" ->
     select_container db3 other = select_container empty_db other) /\
  transfers db3 = transfers empty_db.
Proof.
  apply (register_container_lookup empty_db db3 "0a1b2c3d" now0 now0 "crate"
           "low_level" [] 2000 50 40 "Dock" "low_level" "0a1b2c3d").
  reflexivity.
Defined.

(** X6: if the clock does not run backwards between the two readings
    of a registration, the stored [decay_date] is not before the stored
    [created_at]. *)
Theorem register_container_decay_after_creation (st st' : State)
    (uuid8 : string) (created_now decay_now : datetime)
    (label waste_type : string) (isotopes : list string) (a v m : R)
    (location storage_class cid : string) :
  (created_now <= decay_now)%Z ->
  register_container st uuid8 created_now decay_now label waste_type isotopes
    a v m location storage_class = Ok (st', cid) ->
  exists c, select_container st' cid = Some c /\
    WasteContainer.created_at c = created_now /\
    (WasteContainer.created_at c <= WasteContainer.decay_date c)%Z.
Proof.
  intros Hclock H. apply register_container_inv in H.
  destruct H as [d [Hd [Hfresh [-> ->]]]].
  eexists. split.
  - unfold select_container in *. cbn [containers].
    rewrite find_over_app, Hfresh. simpl. now rewrite String.eqb_refl.
  - split; [reflexivity|]. simpl.
    apply _calc_decay_date_ge_now in Hd. lia.
Qed.

Lemma register_container_decay_after_creation_witness :
  exists c, select_container db3 "0a1b2c3d" = Some c /\
    WasteContainer.created_at c = now0 /\
    (WasteContainer.created_at c <= WasteContainer.decay_date c)%Z.
Proof.
  apply (register_container_decay_after_creation empty_db db3 "0a1b2c3d"
           now0 now0 "crate" "low_level" [] 2000 50 40 "Dock" "low_level"
           "0a1b2c3d").
  - lia.
  - reflexivity.
Defined.

(** ** Transfers *)

(** What a call of [transfer] did. *)
Lemma transfer_inv (st st' : State) (now : datetime)
    (cid to_location by_ : string) (ok : bool) :
  transfer st now cid to_location by_ = (st', ok) ->
  (select_container st cid = None /\ st' = st /\ ok = false) \/
  (exists c, select_container st cid = Some c /\ ok = true /\
     st' = mkState
             (map (update_location cid to_location) (containers st))
             (transfers st
              ++ [(next_transfer_id st,
                   TransferRecord.mk cid (WasteContainer.location c)
                     to_location by_ now false)])%list).
Proof.
  unfold transfer. destruct (select_container st cid) as [c|] eqn:E.
  - intros [= <- <-]. right. now exists c.
  - intros [= <- <-]. now left.
Qed.

Lemma select_after_update (cs : list WasteContainer.t) (cid l x : string) :
  find (fun c => String.eqb (WasteContainer.id c) x)
       (map (update_location cid l) cs)
  = option_map (update_location cid l)
      (find (fun c => String.eqb (WasteContainer.id c) x) cs).
Proof.
  induction cs as [|c cs IH]; simpl; [reflexivity|].
  unfold update_location at 1. rewrite update_location_id.
  destruct (String.eqb (WasteContainer.id c) x); [reflexivity | exact IH].
Qed.

Lemma update_location_other (cid l : string) (c : WasteContainer.t) :
  WasteContainer.id c <> cid -> update_location cid l c = c.
Proof.
  intros H. unfold update_location. apply String.eqb_neq in H. now rewrite H.
Qed.

Lemma fold_max_snoc (l : list Z) (x : Z) :
  fold_right Z.max 0%Z (l ++ [x])%list = Z.max (fold_right Z.max 0%Z l) x.
Proof. induction l as [|a l IH]; simpl; [|rewrite IH]; lia. Qed.

Lemma next_transfer_id_snoc (st : State) (cs : list WasteContainer.t)
    (r : TransferRecord.t) :
  next_transfer_id
    (mkState cs (transfers st ++ [(next_transfer_id st, r)])%list)
  = (next_transfer_id st + 1)%Z.
Proof.
  unfold next_transfer_id. cbn [transfers].
  rewrite map_app. cbn [map fst]. rewrite fold_max_snoc. lia.
Qed.

(** X7: after a successful transfer the container is found at its new
    location, and every other id looks up exactly what it did before. *)
Theorem transfer_lookup (st st' : State) (now : datetime)
    (container_id to_location transferred_by : string) :
  transfer st now container_id to_location transferred_by = (st', true) ->
  (exists c', select_container st' container_id = Some c' /\
              WasteContainer.location c' = to_location) /\
  (forall other, other <> container_id ->
     select_container st' other = select_container st other).
Proof.
  intros H. apply transfer_inv in H.
  destruct H as [[_ [_ H]] | [c [Hc [_ ->]]]]; [discriminate|].
  unfold select_container in *. cbn [containers]. split.
  - rewrite select_after_update, Hc. simpl. eexists. split; [reflexivity|].
    apply find_some in Hc. destruct Hc as [_ Hid].
    unfold update_location. now rewrite Hid.
  - intros other Hother. rewrite select_after_update.
    destruct (find (fun c0 => String.eqb (WasteContainer.id c0) other)
                   (containers st)) as [c'|] eqn:E; [|reflexivity].
    simpl. f_equal. apply update_location_other.
    apply find_some in E. destruct E as [_ E]. apply String.eqb_eq in E.
    congruence.
Qed.

Lemma transfer_lookup_witness :
  (exists c', select_container db1 "c0ffee00" = Some c' /\
              WasteContainer.location c' = "Vault B") /\
  (forall other, other <> "c0ffee00" ->
     select_container db1 other = select_container db0 other).
Proof.
  apply (transfer_lookup db0 db1 now0 "c0ffee00" "Vault B" "alice").
  reflexivity.
Defined.

(** X8: a second transfer of the same container always succeeds and
    chains onto the first: its record gets the next key, its
    [from_location] is the [to_location] of the first, and the container
    ends at the second destination. *)
Theorem transfer_twice (st st1 st2 : State) (now1 now2 : datetime)
    (container_id l1 l2 by1 by2 : string) (ok : bool) :
  transfer st now1 container_id l1 by1 = (st1, true) ->
  transfer st1 now2 container_id l2 by2 = (st2, ok) ->
  ok = true /\
  (exists key r1 r2,
     transfers st2 = (transfers st ++ [(key, r1); ((key + 1)%Z, r2)])%list /\
     TransferRecord.to_location r1 = l1 /\
     TransferRecord.from_location r2 = l1 /\
     TransferRecord.to_location r2 = l2) /\
  (exists c, select_container st2 container_id = Some c /\
             WasteContainer.location c = l2).
Proof.
  intros H1 H2. apply transfer_inv in H1.
  destruct H1 as [[_ [_ H]] | [c [Hc [_ ->]]]]; [discriminate|].
  assert (Hid : WasteContainer.id c = container_id).
  { apply find_some in Hc. destruct Hc as [_ Hc]. now apply String.eqb_eq. }
  assert (Hc1 : select_container
                  (mkState
                     (map (update_location container_id l1) (containers st))
                     (transfers st
                      ++ [(next_transfer_id st,
                           TransferRecord.mk container_id
                             (WasteContainer.location c) l1 by1 now1 false)])%list)
                  container_id
                = Some (WasteContainer.set_location c l1)).
  { unfold select_container in *. cbn [containers].
    rewrite select_after_update, Hc. simpl.
    unfold update_location. now rewrite Hid, String.eqb_refl. }
  apply transfer_inv in H2.
  destruct H2 as [[H _] | [c1 [Hc1' [-> ->]]]]; [congruence|].
  rewrite Hc1 in Hc1'. injection Hc1' as <-.
  split; [reflexivity|]. split.
  - eexists. eexists. eexists. cbn [transfers]. split.
    + rewrite <- app_assoc. simpl. do 2 f_equal.
      rewrite next_transfer_id_snoc. reflexivity.
    + now repeat split.
  - unfold select_container in *. cbn [containers] in *.
    rewrite select_after_update, Hc1. simpl. eexists. split; [reflexivity|].
    unfold update_location. simpl. now rewrite Hid, String.eqb_refl.
Qed.

Lemma transfer_twice_witness :
  true = true /\
  (exists key r1 r2,
     transfers (fst (transfer db1 now0 "c0ffee00" "Vault C" "bob"))
     = (transfers db0 ++ [(key, r1); ((key + 1)%Z, r2)])%list /\
     TransferRecord.to_location r1 = "Vault B" /\
     TransferRecord.from_location r2 = "Vault B" /\
     TransferRecord.to_location r2 = "Vault C") /\
  (exists c,
     select_container (fst (transfer db1 now0 "c0ffee00" "Vault C" "bob"))
       "c0ffee00" = Some c /\
     WasteContainer.location c = "Vault C").
Proof.
  apply (transfer_twice db0 db1 _ now0 now0 "c0ffee00" "Vault B" "Vault C"
           "alice" "bob" true); reflexivity.
Defined.

Lemma filter_map_commute {A} (g : A -> A) (p : A -> bool) (l : list A) :
  (forall x, p (g x) = p x) -> filter p (map g l) = map g (filter p l).
Proof.
  intros H. induction l as [|a l IH]; simpl; [reflexivity|].
  rewrite H. destruct (p a); simpl; now rewrite IH.
Qed.

Lemma flat_map_map {A B} (g : A -> A) (f : A -> list B) (l : list A) :
  (forall x, f (g x) = f x) -> flat_map f (map g l) = flat_map f l.
Proof.
  intros H. induction l as [|a l IH]; simpl; [reflexivity|].
  now rewrite H, IH.
Qed.

Lemma update_location_is_active (cid l : string) (c : WasteContainer.t) :
  is_active (update_location cid l c) = is_active c.
Proof. apply update_location_active. Qed.

Lemma map_id_update_location (cid l : string) (cs : list WasteContainer.t) :
  map WasteContainer.id (map (update_location cid l) cs)
  = map WasteContainer.id cs.
Proof.
  rewrite map_map. apply map_ext. intros c. apply update_location_id.
Qed.

(** X9: a transfer, successful or not, changes no decay-corrected
    activity: [decay_correct] gives the same value for every id and every
    clock reading before and after it. *)
Theorem transfer_keeps_decay_correct (st st' : State) (now : datetime)
    (container_id to_location transferred_by : string) (ok : bool) :
  transfer st now container_id to_location transferred_by = (st', ok) ->
  forall now' cid, decay_correct st' now' cid = decay_correct st now' cid.
Proof.
  intros H now' cid. apply transfer_inv in H.
  destruct H as [[_ [-> _]] | [c [_ [_ ->]]]]; [reflexivity|].
  unfold decay_correct, select_container. cbn [containers].
  rewrite select_after_update.
  destruct (find _ (containers st)) as [c'|]; [|reflexivity].
  simpl. unfold update_location.
  now destruct (String.eqb (WasteContainer.id c') container_id).
Qed.

Lemma transfer_keeps_decay_correct_witness :
  decay_correct db1 (now0 + 1000 * Datetime.US_PER_DAY)%Z "c0ffee00"
  = decay_correct db0 (now0 + 1000 * Datetime.US_PER_DAY)%Z "c0ffee00".
Proof.
  apply (transfer_keeps_decay_correct db0 db1 now0 "c0ffee00" "Vault B"
           "alice" true).
  reflexivity.
Defined.

(** X10: a transfer changes neither the storage-class violations nor
    the expired containers that [compliance_check] reports. *)
Theorem transfer_keeps_violations (st st' : State) (now : datetime)
    (container_id to_location transferred_by : string) (ok : bool) :
  transfer st now container_id to_location transferred_by = (st', ok) ->
  forall now',
    storage_class_violations (compliance_check st' now')
    = storage_class_violations (compliance_check st now') /\
    expired_containers (compliance_check st' now')
    = expired_containers (compliance_check st now').
Proof.
  intros H now'. apply transfer_inv in H.
  destruct H as [[_ [-> _]] | [c [_ [_ ->]]]]; [now split|].
  unfold compliance_check.
  cbn [storage_class_violations expired_containers containers]. split.
  - rewrite filter_map_commute by apply update_location_is_active.
    apply flat_map_map. intros x. unfold update_location.
    now destruct (String.eqb (WasteContainer.id x) container_id).
  - rewrite filter_map_commute.
    + apply map_id_update_location.
    + intros x. rewrite update_location_is_active. f_equal.
      unfold update_location.
      now destruct (String.eqb (WasteContainer.id x) container_id).
Qed.

Lemma transfer_keeps_violations_witness :
  storage_class_violations (compliance_check db1 now0)
  = storage_class_violations (compliance_check db0 now0) /\
  expired_containers (compliance_check db1 now0)
  = expired_containers (compliance_check db0 now0).
Proof.
  apply (transfer_keeps_violations db0 db1 now0 "c0ffee00" "Vault B" "alice"
           true).
  reflexivity.
Defined.

(** ** Compliance: expired containers and missing manifests *)

Lemma missing_manifests_In (st : State) (now : datetime) (cid : string) :
  In cid (missing_manifests (compliance_check st now)) <->
  exists c r, In c (containers st) /\ WasteContainer.id c = cid /\
    is_active c = true /\ In r (transfers st) /\
    TransferRecord.manifested (snd r) = false /\
    TransferRecord.container_id (snd r) = cid.
Proof.
  unfold compliance_check. cbn [missing_manifests].
  rewrite in_map_iff. split.
  - intros [c [Hid Hc]]. apply filter_In in Hc. destruct Hc as [Hin Hq].
    apply andb_true_iff in Hq. destruct Hq as [Hex Hact].
    apply existsb_exists in Hex. destruct Hex as [x [Hx Heq]].
    apply String.eqb_eq in Heq. apply in_map_iff in Hx.
    destruct Hx as [r [Hr Hrin]]. apply filter_In in Hrin.
    destruct Hrin as [Hrin Hm]. apply negb_true_iff in Hm.
    exists c, r. repeat split; auto. congruence.
  - intros [c [r [Hin [Hid [Hact [Hr [Hm Hrc]]]]]]].
    exists c. split; [exact Hid|]. apply filter_In. split; [exact Hin|].
    apply andb_true_iff. split; [|exact Hact].
    apply existsb_exists. exists cid. split.
    + apply in_map_iff. exists r. split; [exact Hrc|].
      apply filter_In. split; [exact Hr|]. now rewrite Hm.
    + now apply String.eqb_eq.
Qed.

Lemma expired_containers_In (st : State) (now : datetime) (cid : string) :
  In cid (expired_containers (compliance_check st now)) <->
  exists c, In c (containers st) /\ WasteContainer.id c = cid /\
    is_active c = true /\ (WasteContainer.decay_date c < now)%Z.
Proof.
  unfold compliance_check. cbn [expired_containers].
  rewrite in_map_iff. split.
  - intros [c [Hid Hc]]. apply filter_In in Hc. destruct Hc as [Hin Hq].
    apply andb_true_iff in Hq. destruct Hq as [Hlt Hact].
    apply Z.ltb_lt in Hlt. now exists c.
  - intros [c [Hin [Hid [Hact Hlt]]]]. exists c. split; [exact Hid|].
    apply filter_In. split; [exact Hin|].
    apply andb_true_iff. split; [now apply Z.ltb_lt | exact Hact].
Qed.



Lemma filter_keeps_keys_distinct {K V} (key : V -> K) (keep : V -> bool)
    (rows : list V) :
  NoDup (map key rows) -> NoDup (map key (filter keep rows)).
Proof.
  induction rows as [|r rows IH]; simpl; intros H; [constructor|].
  inversion H as [|? ? Hnotin Hnd]; subst.
  destruct (keep r); simpl; [|now apply IH].
  constructor; [|now apply IH].
  intros Hin. apply Hnotin. apply in_map_iff in Hin.
  destruct Hin as [x [Hx Hxin]]. apply filter_In in Hxin.
  rewrite <- Hx. apply in_map. tauto.
Qed.

Lemma violation_ids (st : State) (now : datetime) :
  map Violation.container_id
    (storage_class_violations (compliance_check st now))
  = map WasteContainer.id
      (filter (fun c =>
                 if Rlt_dec (storage_limit (WasteContainer.storage_class c))
                            (WasteContainer.activity_bq c)
                 then true else false)
              (filter is_active (containers st))).
Proof.
  unfold compliance_check. cbn [storage_class_violations].
  induction (filter is_active (containers st)) as [|c l IH]; simpl;
    [reflexivity|].
  rewrite map_app, IH. now destruct (Rlt_dec _ _).
Qed.

Lemma reachable_db3 : reachable db3.
Proof.
  apply (reachable_step empty_db); [constructor|].
  apply (step_register empty_db db3 "0a1b2c3d" now0 now0 "crate" "low_level"
           [] 2000 50 40 "Dock" "low_level" "0a1b2c3d").
  reflexivity.
Qed.

Lemma reachable_db4 : reachable db4.
Proof.
  apply (reachable_step db3); [exact reachable_db3|].
  apply (step_transfer db3 db4 now0 "0a1b2c3d" "Vault C" "bob" true).
  reflexivity.
Qed.

(** X12: no operation ever sets [manifested], so in every database
    reached by registrations and transfers [missing_manifests] lists
    exactly the containers that have been transferred at least once. *)
Theorem reachable_missing_manifests (st : State) (now : datetime)
    (cid : string) :
  reachable st ->
  (In cid (missing_manifests (compliance_check st now)) <->
   exists r, In r (transfers st)
             /\ TransferRecord.container_id (snd r) = cid).
Proof.
  intros Hr. apply reachable_invariant in Hr. destruct Hr as [_ Hact Htr].
  rewrite missing_manifests_In. split.
  - intros [c [r [_ [_ [_ [Hr [_ Hrc]]]]]]]. now exists r.
  - intros [r [Hr Hrc]]. destruct (Htr r Hr) as [Hm [c [Hc Hid]]].
    exists c, r. repeat split; auto. congruence.
Qed.

Lemma reachable_missing_manifests_witness :
  In "0a1b2c3d" (missing_manifests (compliance_check db4 now0)) <->
  exists r, In r (transfers db4)
            /\ TransferRecord.container_id (snd r) = "0a1b2c3d".
Proof.
  apply (reachable_missing_manifests db4 now0 "0a1b2c3d").
  exact reachable_db4.
Defined.

(** X13: under the primary key, an active container is listed under
    [expired_containers] exactly when its stored [decay_date] is
    strictly before the time of the check. *)
Theorem compliance_check_expired (st : State) (now : datetime)
    (c : WasteContainer.t) :
  primary_key st -> In c (containers st) -> is_active c = true ->
  (In (WasteContainer.id c) (expired_containers (compliance_check st now))
   <-> (WasteContainer.decay_date c < now)%Z).
Proof.
  intros Hpk Hin Hact. rewrite expired_containers_In. split.
  - intros [c' [Hin' [Hid [_ Hlt]]]].
    assert (c' = c) by exact (NoDup_map_injective _ _ _ _ Hpk Hin' Hin Hid).
    now subst c'.
  - intros Hlt. now exists c.
Qed.

Lemma compliance_check_expired_witness :
  In (WasteContainer.id crate0)
     (expired_containers
        (compliance_check db3 (now0 + 400 * Datetime.US_PER_DAY)%Z))
  <-> (WasteContainer.decay_date crate0
       < now0 + 400 * Datetime.US_PER_DAY)%Z.
Proof.
  apply (compliance_check_expired db3 _ crate0).
  - repeat constructor. simpl. tauto.
  - now left.
  - reflexivity.
Defined.

(** X14: under the primary key no container is reported twice in a
    category of [compliance_check], however many transfer records it has. *)
Theorem compliance_check_no_duplicates (st : State) (now : datetime) :
  primary_key st ->
  NoDup (map Violation.container_id
           (storage_class_violations (compliance_check st now))) /\
  NoDup (expired_containers (compliance_check st now)) /\
  NoDup (missing_manifests (compliance_check st now)).
Proof.
  intros Hpk. split; [|split].
  - rewrite violation_ids. now do 2 apply filter_keeps_keys_distinct.
  - unfold compliance_check. cbn [expired_containers].
    now apply filter_keeps_keys_distinct.
  - unfold compliance_check. cbn [missing_manifests].
    now apply filter_keeps_keys_distinct.
Qed.

Lemma compliance_check_no_duplicates_witness :
  NoDup (map Violation.container_id
           (storage_class_violations (compliance_check db4 now0))) /\
  NoDup (expired_containers (compliance_check db4 now0)) /\
  NoDup (missing_manifests (compliance_check db4 now0)).
Proof.
  apply (compliance_check_no_duplicates db4 now0).
  repeat constructor. simpl. tauto.
Defined.

(** X15: a freshly registered container is reported as expired exactly
    when the check is made after the date the registration estimated. *)
Theorem register_then_expired (st st' : State) (uuid8 : string)
    (created_now decay_now : datetime) (label waste_type : string)
    (isotopes : list string) (a v m : R) (location storage_class cid : string) :
  register_container st uuid8 created_now decay_now label waste_type isotopes
    a v m location storage_class = Ok (st', cid) ->
  exists d, _calc_decay_date isotopes a decay_now = Ok d /\
    forall now,
      In cid (expired_containers (compliance_check st' now)) <-> (d < now)%Z.
Proof.
  intros H. apply register_container_inv in H.
  destruct H as [d [Hd [Hfresh [-> ->]]]].
  exists d. split; [exact Hd|]. intros now.
  rewrite expired_containers_In. cbn [containers].
  rewrite select_container_None in Hfresh. split.
  - intros [c [Hin [Hid [_ Hlt]]]]. apply in_app_or in Hin.
    destruct Hin as [Hin | [<- | []]]; [now apply Hfresh in Hin | exact Hlt].
  - intros Hlt. eexists. split; [apply in_or_app; right; now left|].
    now repeat split.
Qed.

Lemma register_then_expired_witness :
  exists d, _calc_decay_date [] 2000 now0 = Ok d /\
    forall now,
      In "0a1b2c3d" (expired_containers (compliance_check db3 now))
      <-> (d < now)%Z.
Proof.
  apply (register_then_expired empty_db db3 "0a1b2c3d" now0 now0 "crate"
           "low_level" [] 2000 50 40 "Dock" "low_level" "0a1b2c3d").
  reflexivity.
Defined.

(** The specification's example: 2000 Bq without isotopes, registered
    400 days before the check, is reported as expired. *)
Example registered_400_days_ago :
  In "0a1b2c3d"
     (expired_containers
        (compliance_check db3 (now0 + 400 * Datetime.US_PER_DAY)%Z)).
Proof. simpl. now left. Qed.

(** X16: a container registered with some isotope and an activity of at
    most 1000 Bq gets the time of registration as decay date, so every
    compliance check made at a later clock reading reports it as expired. *)
Theorem register_safe_then_expired (st st' : State) (uuid8 : string)
    (created_now decay_now : datetime) (label waste_type iso : string)
    (rest : list string) (a v m : R) (location storage_class cid : string) :
  a <= 1000 ->
  register_container st uuid8 created_now decay_now label waste_type
    (iso :: rest) a v m location storage_class = Ok (st', cid) ->
  forall now,
    In cid (expired_containers (compliance_check st' now))
    <-> (decay_now < now)%Z.
Proof.
  intros Ha H now. apply register_container_inv in H.
  destruct H as [d [Hd [Hfresh [-> ->]]]].
  rewrite calc_decay_date_below in Hd by exact Ha. injection Hd as <-.
  rewrite expired_containers_In. cbn [containers].
  rewrite select_container_None in Hfresh. split.
  - intros [c [Hin [Hid [_ Hlt]]]]. apply in_app_or in Hin.
    destruct Hin as [Hin | [<- | []]]; [now apply Hfresh in Hin | exact Hlt].
  - intros Hlt. eexists. split; [apply in_or_app; right; now left|].
    now repeat split.
Qed.

Lemma register_safe_then_expired_witness :
  In "deadbeef"
     (expired_containers
        (compliance_check
           (mkState
              [WasteContainer.mk "deadbeef" "vial" "exempt" ["H-3"] 300 1 1
                 "Lab" "exempt" now0 now0 "active"] [])
           (now0 + 1)%Z))
  <-> (now0 < now0 + 1)%Z.
Proof.
  apply (register_safe_then_expired empty_db _ "deadbeef" now0 now0 "vial"
           "exempt" "H-3" [] 300 1 1 "Lab" "exempt" "deadbeef").
  - lra.
  - unfold register_container.
    rewrite calc_decay_date_below by (unfold SAFE_THRESHOLD; lra).
    reflexivity.
Defined.

(** ** Inventory and totals *)

Lemma and_where_true (query : WasteContainer.t -> bool)
    (column : WasteContainer.t -> string) (arg : option string)
    (c : WasteContainer.t) :
  and_where query column arg c = true <->
  query c = true /\ (forall v, arg = Some v -> v <> "" -> column c = v).
Proof.
  unfold and_where, truthy. destruct arg as [v|].
  - destruct (String.eqb v "") eqn:E; simpl.
    + apply String.eqb_eq in E. split; [|tauto].
      intros H. split; [exact H|]. intros v' [= <-] Hne. contradiction.
    + apply String.eqb_neq in E. rewrite andb_true_iff, String.eqb_eq.
      split.
      * intros [H1 H2]. split; [exact H1|]. now intros v' [= <-] _.
      * intros [H1 H2]. split; [exact H1|]. now apply H2.
  - split; [|tauto]. intros H. split; [exact H|]. discriminate.
Qed.

(** X17: [get_inventory] returns exactly the active containers whose
    location and waste type equal the arguments that are given and not
    empty. *)
Theorem get_inventory_In (st : State) (location waste_type : option string)
    (c : WasteContainer.t) :
  In c (get_inventory st location waste_type) <->
  In c (containers st) /\ is_active c = true /\
  (forall l, location = Some l -> l <> "" -> WasteContainer.location c = l) /\
  (forall w, waste_type = Some w -> w <> "" ->
             WasteContainer.waste_type c = w).
Proof.
  unfold get_inventory. rewrite filter_In, and_where_true, and_where_true.
  tauto.
Qed.

Lemma py_sum_app (xs ys : list R) :
  py_sum (xs ++ ys)%list = py_sum xs + py_sum ys.
Proof.
  unfold py_sum. rewrite !fold_left_Rplus, fold_right_app.
  induction xs as [|x xs IH]; simpl; [lra|].
  rewrite !Rplus_0_l in *. rewrite IH. ring.
Qed.

Lemma py_sum_cons (x : R) (xs : list R) : py_sum (x :: xs) = x + py_sum xs.
Proof. change (x :: xs) with ([x] ++ xs)%list. rewrite py_sum_app.
  unfold py_sum at 1. simpl. ring. Qed.

Lemma inventory_unfiltered (st : State) (location : option string) :
  get_inventory st location None
  = filter (and_where is_active WasteContainer.location location)
           (containers st).
Proof. reflexivity. Qed.

Lemma total_activity_inventory (st : State) (location : option string) :
  total_activity st location
  = py_sum (map WasteContainer.activity_bq (get_inventory st location None)).
Proof.
  assert (Hsum : forall xs, match sql_sum xs with
                            | None => 0
                            | Some r => if Req_dec_T r 0 then 0 else r
                            end = py_sum xs).
  { intros [|x xs]; [reflexivity|]. unfold sql_sum.
    destruct (Req_dec_T _ _) as [E | _]; [now rewrite E | reflexivity]. }
  rewrite inventory_unfiltered. unfold total_activity, and_where.
  destruct location as [l|]; [|apply Hsum].
  destruct (truthy l); [|apply Hsum].
  rewrite Hsum. do 2 f_equal. apply filter_ext. intros c. apply andb_comm.
Qed.

(** X18: [total_activity] is the sum of the [activity_bq] of the
    containers that [get_inventory] lists for the same location, and 0
    when it lists none. *)
Theorem total_activity_is_inventory_sum (st : State)
    (location : option string) :
  total_activity st location
  = py_sum (map WasteContainer.activity_bq (get_inventory st location None))
  /\ (get_inventory st location None = [] -> total_activity st location = 0).
Proof.
  split; [apply total_activity_inventory|].
  intros H. now rewrite total_activity_inventory, H.
Qed.

Lemma total_activity_is_inventory_sum_witness :
  total_activity db2 (Some "Nowhere")
  = py_sum (map WasteContainer.activity_bq
              (get_inventory db2 (Some "Nowhere") None))
  /\ (get_inventory db2 (Some "Nowhere") None = [] ->
      total_activity db2 (Some "Nowhere") = 0).
Proof. apply (total_activity_is_inventory_sum db2 (Some "Nowhere")). Defined.

Lemma filtered_sum_split (q : WasteContainer.t -> bool)
    (before after : list WasteContainer.t) (c : WasteContainer.t) :
  py_sum (map WasteContainer.activity_bq
            (filter q (before ++ c :: after)%list))
  = py_sum (map WasteContainer.activity_bq (filter q before))
    + (if q c then WasteContainer.activity_bq c else 0)
    + py_sum (map WasteContainer.activity_bq (filter q after)).
Proof.
  rewrite filter_app, map_app, py_sum_app. simpl.
  destruct (q c); simpl; [rewrite py_sum_cons|]; ring.
Qed.

(** X19: a successful transfer of an active container between two
    different, non-empty locations moves its activity: the total of the
    destination grows by the container's [activity_bq], the total of the
    origin shrinks by it, and the global total and the totals of all other
    locations stay the same. *)
Theorem transfer_moves_activity (st st' : State) (now : datetime)
    (container_id to_location transferred_by : string)
    (c : WasteContainer.t) :
  primary_key st ->
  select_container st container_id = Some c -> is_active c = true ->
  to_location <> "" -> WasteContainer.location c <> "" ->
  WasteContainer.location c <> to_location ->
  transfer st now container_id to_location transferred_by = (st', true) ->
  total_activity st' (Some to_location)
  = total_activity st (Some to_location) + WasteContainer.activity_bq c /\
  total_activity st' (Some (WasteContainer.location c))
  = total_activity st (Some (WasteContainer.location c))
    - WasteContainer.activity_bq c /\
  total_activity st' None = total_activity st None /\
  (forall l, l <> to_location -> l <> WasteContainer.location c ->
     total_activity st' (Some l) = total_activity st (Some l)).
Proof.
  intros Hpk Hc Hact Hto Hfrom Hdiff H.
  apply transfer_inv in H.
  destruct H as [[_ [_ H]] | [c0 [Hc0 [_ ->]]]]; [discriminate|].
  apply select_container_In in Hc. destruct Hc as [Hin Hid].
  destruct (update_location_split _ _ to_location _ Hpk Hin Hid)
    as [before [after [Hcs Hupd]]].
  assert (Htot : forall loc,
            total_activity
              (mkState
                 (map (update_location container_id to_location)
                      (containers st))
                 (transfers st
                  ++ [(next_transfer_id st,
                       TransferRecord.mk container_id
                         (WasteContainer.location c0) to_location
                         transferred_by now false)])%list) loc
            - total_activity st loc
            = (if and_where is_active WasteContainer.location loc
                    (WasteContainer.set_location c to_location)
               then WasteContainer.activity_bq c else 0)
              - (if and_where is_active WasteContainer.location loc c
                 then WasteContainer.activity_bq c else 0)).
  { intros loc. rewrite !total_activity_inventory, !inventory_unfiltered.
    cbn [containers]. unfold update_location. rewrite Hupd, Hcs.
    rewrite !filtered_sum_split. simpl. ring. }
  assert (Hne : forall l, l <> "" -> truthy l = true).
  { intros l Hl. unfold truthy. apply String.eqb_neq in Hl. now rewrite Hl. }
  assert (Hset : is_active (WasteContainer.set_location c to_location) = true)
    by exact Hact.
  split; [|split; [|split]].
  - pose proof (Htot (Some to_location)) as E. unfold and_where in E.
    rewrite (Hne _ Hto), Hset, Hact in E. simpl in E.
    rewrite String.eqb_refl in E. apply String.eqb_neq in Hdiff.
    rewrite Hdiff in E. lra.
  - pose proof (Htot (Some (WasteContainer.location c))) as E.
    unfold and_where in E.
    rewrite (Hne _ Hfrom), Hset, Hact in E. simpl in E.
    rewrite String.eqb_refl in E.
    assert (Hd : String.eqb to_location (WasteContainer.location c) = false).
    { apply String.eqb_neq. congruence. }
    rewrite Hd in E. lra.
  - pose proof (Htot None) as E. unfold and_where in E.
    rewrite Hset, Hact in E. lra.
  - intros l Hl1 Hl2. pose proof (Htot (Some l)) as E. unfold and_where in E.
    destruct (truthy l); rewrite Hset, Hact in E; [|lra].
    simpl in E.
    assert (H1 : String.eqb to_location l = false).
    { apply String.eqb_neq. congruence. }
    assert (H2 : String.eqb (WasteContainer.location c) l = false).
    { apply String.eqb_neq. congruence. }
    rewrite H1, H2 in E. lra.
Qed.

Lemma transfer_moves_activity_witness :
  total_activity db1 (Some "Vault B")
  = total_activity db0 (Some "Vault B") + WasteContainer.activity_bq drum0 /\
  total_activity db1 (Some (WasteContainer.location drum0))
  = total_activity db0 (Some (WasteContainer.location drum0))
    - WasteContainer.activity_bq drum0 /\
  total_activity db1 None = total_activity db0 None /\
  (forall l, l <> "Vault B" -> l <> WasteContainer.location drum0 ->
     total_activity db1 (Some l) = total_activity db0 (Some l)).
Proof.
  apply (transfer_moves_activity db0 db1 now0 "c0ffee00" "Vault B" "alice"
           drum0); try reflexivity; try discriminate.
  repeat constructor. simpl. tauto.
Defined.

Lemma filter_all {A} (p : A -> bool) (l : list A) :
  (forall x, In x l -> p x = true) -> filter p l = l.
Proof.
  induction l as [|a l IH]; simpl; intros H; [reflexivity|].
  rewrite H by now left. f_equal. apply IH. intros x Hx. apply H. now right.
Qed.

(** X20: no operation ever changes a [status], so in every database
    reached by registrations and transfers the unfiltered inventory is
    the whole table, in table order. *)
Theorem reachable_inventory_is_everything (st : State) :
  reachable st -> get_inventory st None None = containers st.
Proof.
  intros Hr. apply reachable_invariant in Hr. destruct Hr as [_ Hact _].
  unfold get_inventory, and_where. now apply filter_all.
Qed.

Lemma reachable_inventory_is_everything_witness :
  get_inventory db4 None None = containers db4.
Proof.
  apply (reachable_inventory_is_everything db4). exact reachable_db4.
Defined.

(** ** Transfer keys *)

Lemma fold_max_seq (n : nat) :
  fold_right Z.max 0%Z (map Z.of_nat (seq 1 n)) = Z.of_nat n.
Proof.
  induction n as [|n IH]; [reflexivity|].
  rewrite seq_S, map_app. cbn [map]. rewrite fold_max_snoc, IH. lia.
Qed.

(** [AUTOINCREMENT]: the keys of [transfers] are 1, 2, ... in table order. *)
Lemma reachable_transfer_keys (st : State) :
  reachable st ->
  map fst (transfers st)
  = map Z.of_nat (seq 1 (List.length (transfers st))).
Proof.
  induction 1 as [|st st' _ IH Hstep]; [reflexivity|].
  destruct Hstep as [st st' uuid8 t1 t2 lbl wt isos a v m loc sc cid Hreg
                    | st st' now cid to_ by_ ok Htf].
  - apply register_container_inv in Hreg.
    destruct Hreg as [d [_ [_ [_ ->]]]]. exact IH.
  - apply transfer_inv in Htf.
    destruct Htf as [[_ [-> _]] | [c [_ [_ ->]]]]; [exact IH|].
    cbn [transfers]. rewrite map_app, length_app. simpl List.length.
    rewrite Nat.add_1_r, seq_S, map_app, <- IH. simpl. do 2 f_equal.
    unfold next_transfer_id. rewrite IH, fold_max_seq. lia.
Qed.

Lemma select_transfer_Some (st : State) (k : Z) :
  (exists t, select_transfer st k = Some t) <-> In k (map fst (transfers st)).
Proof.
  split.
  - intros [t Ht]. apply select_transfer_In in Ht.
    apply in_map_iff. now exists (k, t).
  - intros Hin. destruct (select_transfer st k) as [t|] eqn:E;
      [now exists t|].
    rewrite select_transfer_None in E. apply in_map_iff in Hin.
    destruct Hin as [r [Hr Hin]]. now apply E in Hin.
Qed.

(** X21: in every database reached by registrations and transfers the
    transfer ids are 1 to the number of transfers made, and
    [generate_manifest] returns a document exactly for these ids and
    the empty string for every other one. *)
Theorem reachable_manifest_ids (st : State) (now : datetime) (k : Z) :
  reachable st ->
  (generate_manifest st now k <> EmptyString <->
   (1 <= k <= Z.of_nat (List.length (transfers st)))%Z).
Proof.
  intros Hr.
  assert (Hk : (exists t, select_transfer st k = Some t) <->
               (1 <= k <= Z.of_nat (List.length (transfers st)))%Z).
  { rewrite select_transfer_Some, (reachable_transfer_keys st Hr).
    rewrite in_map_iff. split.
    - intros [n [<- Hn]]. apply in_seq in Hn. lia.
    - intros H. exists (Z.to_nat k). split; [lia|]. apply in_seq. lia. }
  rewrite <- Hk. unfold generate_manifest. split.
  - destruct (select_transfer st k) as [t|]; [now exists t | congruence].
  - intros [t Ht]. rewrite Ht.
    destruct (reachable_transfer_has_container st k t Hr Ht) as [c ->].
    discriminate.
Qed.

Lemma reachable_manifest_ids_witness :
  generate_manifest db4 now0 1 <> EmptyString <->
  (1 <= 1 <= Z.of_nat (List.length (transfers db4)))%Z.
Proof.
  apply (reachable_manifest_ids db4 now0 1). exact reachable_db4.
Defined.

(** ** Decay-corrected activity *)

Lemma py_sum_pos (xs : list R) :
  xs <> [] -> (forall x, In x xs -> 0 < x) -> 0 < py_sum xs.
Proof.
  induction xs as [|x xs IH]; [contradiction|]. intros _ H.
  rewrite py_sum_cons. destruct xs as [|y ys].
  - unfold py_sum. simpl. specialize (H x (or_introl eq_refl)). lra.
  - assert (0 < py_sum (y :: ys)).
    { apply IH; [discriminate|]. intros z Hz. apply H. now right. }
    specialize (H x (or_introl eq_refl)). lra.
Qed.

Lemma py_sum_le (xs : list R) (M : R) :
  (forall x, In x xs -> x <= M) -> py_sum xs <= INR (List.length xs) * M.
Proof.
  induction xs as [|x xs IH]; intros H.
  - unfold py_sum. simpl. lra.
  - rewrite py_sum_cons. change (List.length (x :: xs)) with (S (List.length xs)).
    rewrite S_INR.
    assert (py_sum xs <= INR (List.length xs) * M)
      by (apply IH; intros z Hz; apply H; now right).
    specialize (H x (or_introl eq_refl)). lra.
Qed.

(** The half-life [decay_correct] uses. *)
Lemma avg_half_life_pos (isotopes : list string) :
  0 < match isotopes with
      | [] => 1
      | _ :: _ => py_sum (map half_life isotopes)
                  / INR (List.length isotopes)
      end.
Proof.
  destruct isotopes as [|iso rest]; [lra|].
  apply Rdiv_lt_0_compat.
  - apply py_sum_pos; [discriminate|]. intros x Hx.
    apply in_map_iff in Hx. destruct Hx as [i [<- _]]. apply half_life_pos.
  - apply lt_0_INR. simpl. lia.
Qed.

Lemma avg_half_life_le_max (iso : string) (rest : list string) :
  py_sum (map half_life (iso :: rest)) / INR (List.length (iso :: rest))
  <= py_max (half_life iso) (map half_life rest).
Proof.
  assert (Hlen : 0 < INR (List.length (iso :: rest)))
    by (apply lt_0_INR; simpl; lia).
  apply Rmult_le_reg_r with (INR (List.length (iso :: rest))); [exact Hlen|].
  unfold Rdiv. rewrite Rmult_assoc, Rinv_l, Rmult_1_r by lra.
  rewrite Rmult_comm.
  rewrite <- (length_map half_life (iso :: rest)).
  apply py_sum_le. intros x Hx. now apply py_max_upper.
Qed.

Lemma Rpower_half_antitone (x y : R) :
  x <= y -> Rpower 0.5 y <= Rpower 0.5 x.
Proof.
  intros Hxy. unfold Rpower.
  assert (Hln : ln 0.5 < 0).
  { rewrite <- ln_1. apply ln_increasing; lra. }
  assert (H : y * ln 0.5 <= x * ln 0.5) by nra.
  destruct H as [H | ->]; [left; now apply exp_increasing | right; reflexivity].
Qed.

Lemma Rpower_half_pos (x : R) : 0 < Rpower 0.5 x.
Proof. unfold Rpower. apply exp_pos. Qed.

Lemma Rpower_half_le_1 (x : R) : 0 <= x -> Rpower 0.5 x <= 1.
Proof.
  intros Hx. rewrite <- (Rpower_O 0.5) by lra. now apply Rpower_half_antitone.
Qed.

Lemma whole_days_monotone (t now1 now2 : datetime) :
  (now1 <= now2)%Z ->
  IZR (Datetime.days (Datetime.sub now1 t))
  <= IZR (Datetime.days (Datetime.sub now2 t)).
Proof.
  intros H. apply IZR_le. unfold Datetime.days, Datetime.sub.
  apply Z.div_le_mono; [reflexivity | lia].
Qed.

(** X22: for a container with a non-negative stored activity the
    decay-corrected activity never grows as the clock advances. *)
Theorem decay_correct_non_increasing (st : State) (now1 now2 : datetime)
    (container_id : string) (c : WasteContainer.t) :
  select_container st container_id = Some c ->
  0 <= WasteContainer.activity_bq c -> (now1 <= now2)%Z ->
  decay_correct st now2 container_id <= decay_correct st now1 container_id.
Proof.
  intros Hc Ha Hnow. unfold decay_correct. rewrite Hc.
  apply Rmult_le_compat_l; [exact Ha|].
  apply Rpower_half_antitone.
  pose proof (avg_half_life_pos (WasteContainer.isotopes c)) as Havg.
  pose proof (whole_days_monotone (WasteContainer.created_at c) _ _ Hnow).
  apply Rmult_le_compat_r; [left; now apply Rinv_0_lt_compat|].
  apply Rmult_le_compat_r; [lra | assumption].
Qed.

Lemma decay_correct_non_increasing_witness :
  decay_correct db0 (now0 + 1000 * Datetime.US_PER_DAY)%Z "c0ffee00"
  <= decay_correct db0 now0 "c0ffee00".
Proof.
  apply (decay_correct_non_increasing db0 now0 _ "c0ffee00" drum0).
  - reflexivity.
  - simpl. lra.
  - vm_compute. discriminate.
Defined.

(** X23: for a container with a non-negative stored activity, read at
    or after its [created_at], the decay-corrected activity is never
    negative and never above the stored activity. *)
Theorem decay_correct_bounds (st : State) (now : datetime)
    (container_id : string) (c : WasteContainer.t) :
  select_container st container_id = Some c ->
  0 <= WasteContainer.activity_bq c -> (WasteContainer.created_at c <= now)%Z ->
  0 <= decay_correct st now container_id <= WasteContainer.activity_bq c.
Proof.
  intros Hc Ha Hnow. unfold decay_correct. rewrite Hc.
  pose proof (avg_half_life_pos (WasteContainer.isotopes c)) as Havg.
  set (e := IZR (Datetime.days (Datetime.sub now (WasteContainer.created_at c)))
            / 365.25
            / match WasteContainer.isotopes c with
              | [] => 1
              | _ :: _ => py_sum (map half_life (WasteContainer.isotopes c))
                          / INR (List.length (WasteContainer.isotopes c))
              end).
  assert (He : 0 <= e).
  { unfold e. apply Rmult_le_pos; [|left; now apply Rinv_0_lt_compat].
    apply Rmult_le_pos; [|lra].
    apply IZR_le. unfold Datetime.days, Datetime.sub.
    apply Z.div_pos; [lia | reflexivity]. }
  pose proof (Rpower_half_pos e). pose proof (Rpower_half_le_1 e He).
  split; nra.
Qed.

Lemma decay_correct_bounds_witness :
  0 <= decay_correct db0 (now0 + 1000 * Datetime.US_PER_DAY)%Z "c0ffee00"
  <= WasteContainer.activity_bq drum0.
Proof.
  apply (decay_correct_bounds db0 _ "c0ffee00" drum0).
  - reflexivity.
  - simpl. lra.
  - vm_compute. discriminate.
Defined.

(** X24: read at or after [created_at], the decay-corrected activity of
    a container with isotopes and a non-negative stored activity is never
    above what the longest half-life, the one the decay date is
    estimated with, would give. *)
Theorem decay_correct_below_worst_case (st : State) (now : datetime)
    (container_id : string) (c : WasteContainer.t) (iso : string)
    (rest : list string) :
  select_container st container_id = Some c ->
  WasteContainer.isotopes c = iso :: rest ->
  0 <= WasteContainer.activity_bq c -> (WasteContainer.created_at c <= now)%Z ->
  decay_correct st now container_id
  <= WasteContainer.activity_bq c
     * Rpower 0.5
         (IZR (Datetime.days (Datetime.sub now (WasteContainer.created_at c)))
          / 365.25 / py_max (half_life iso) (map half_life rest)).
Proof.
  intros Hc Hiso Ha Hnow. unfold decay_correct. rewrite Hc, Hiso.
  apply Rmult_le_compat_l; [exact Ha|]. apply Rpower_half_antitone.
  pose proof (avg_half_life_pos (iso :: rest)) as Havg.
  pose proof (avg_half_life_le_max iso rest) as Hmax.
  apply Rmult_le_compat_l.
  - apply Rmult_le_pos; [|lra]. apply IZR_le.
    unfold Datetime.days, Datetime.sub. apply Z.div_pos; [lia | reflexivity].
  - now apply Rinv_le_contravar.
Qed.

Lemma decay_correct_below_worst_case_witness :
  decay_correct db0 (now0 + 1000 * Datetime.US_PER_DAY)%Z "c0ffee00"
  <= WasteContainer.activity_bq drum0
     * Rpower 0.5
         (IZR (Datetime.days
                 (Datetime.sub (now0 + 1000 * Datetime.US_PER_DAY)%Z
                    (WasteContainer.created_at drum0)))
          / 365.25 / py_max (half_life "Cs-137") (map half_life ["Co-60"])).
Proof.
  apply (decay_correct_below_worst_case db0 _ "c0ffee00" drum0 "Cs-137"
           ["Co-60"]).
  - reflexivity.
  - reflexivity.
  - simpl. lra.
  - vm_compute. discriminate.
Defined.

(** ** Decay schedule *)

Lemma insert_by_decay_date_perm (c : WasteContainer.t)
    (rows : list WasteContainer.t) :
  Permutation (insert_by_decay_date c rows) (c :: rows).
Proof.
  induction rows as [|r rows IH]; simpl; [reflexivity|].
  destruct (_ <=? _)%Z; [reflexivity|].
  rewrite IH. apply perm_swap.
Qed.

Lemma order_by_decay_date_perm (rows : list WasteContainer.t) :
  Permutation (order_by_decay_date rows) rows.
Proof.
  induction rows as [|c rows IH]; simpl; [reflexivity|].
  rewrite insert_by_decay_date_perm. now constructor.
Qed.

Lemma insert_by_decay_date_sorted (c : WasteContainer.t)
    (rows : list WasteContainer.t) :
  Sorted (fun x y => (WasteContainer.decay_date x
                      <= WasteContainer.decay_date y)%Z) rows ->
  Sorted (fun x y => (WasteContainer.decay_date x
                      <= WasteContainer.decay_date y)%Z)
         (insert_by_decay_date c rows).
Proof.
  induction rows as [|r rows IH]; simpl; intros Hs.
  - repeat constructor.
  - destruct (_ <=? _)%Z eqn:E.
    + constructor; [exact Hs|]. constructor. now apply Z.leb_le.
    + apply Z.leb_gt in E. inversion Hs as [|? ? Hs' Hhd]; subst.
      constructor; [now apply IH|].
      destruct rows as [|r' rows']; simpl.
      * constructor. lia.
      * destruct (_ <=? _)%Z; constructor; [lia|].
        inversion Hhd; subst. assumption.
Qed.

Lemma order_by_decay_date_sorted (rows : list WasteContainer.t) :
  Sorted (fun x y => (WasteContainer.decay_date x
                      <= WasteContainer.decay_date y)%Z)
         (order_by_decay_date rows).
Proof.
  induction rows as [|c rows IH]; simpl; [constructor|].
  now apply insert_by_decay_date_sorted.
Qed.

Lemma schedule_entries_ids (rows : list WasteContainer.t)
    (clock : nat -> datetime) (k : nat) :
  map ScheduleEntry.container_id (schedule_entries rows clock k)
  = map WasteContainer.id rows.
Proof.
  revert k. induction rows as [|c rows IH]; intros k; simpl;
    [reflexivity | now rewrite IH].
Qed.

Lemma schedule_entries_sorted (rows : list WasteContainer.t)
    (clock : nat -> datetime) (k : nat) :
  Sorted (fun x y => (WasteContainer.decay_date x
                      <= WasteContainer.decay_date y)%Z) rows ->
  Sorted (fun e1 e2 => (ScheduleEntry.safe_decay_date e1
                        <= ScheduleEntry.safe_decay_date e2)%Z)
         (schedule_entries rows clock k).
Proof.
  revert k. induction rows as [|c rows IH]; intros k Hs; simpl;
    [constructor|].
  inversion Hs as [|? ? Hs' Hhd]; subst. constructor; [now apply IH|].
  destruct rows as [|c' rows']; simpl; constructor.
  inversion Hhd; subst. assumption.
Qed.

Lemma schedule_entries_nth (rows : list WasteContainer.t)
    (clock : nat -> datetime) (k i : nat) (e : ScheduleEntry.t) :
  nth_error (schedule_entries rows clock k) i = Some e ->
  exists c, nth_error rows i = Some c /\
    e = ScheduleEntry.mk (WasteContainer.id c) (WasteContainer.label c)
          (WasteContainer.activity_bq c) (WasteContainer.decay_date c)
          (Datetime.days
             (Datetime.sub (WasteContainer.decay_date c) (clock (k + i)%nat))).
Proof.
  revert k i. induction rows as [|c rows IH]; intros k i; simpl.
  - destruct i; discriminate.
  - destruct i as [|i]; simpl.
    + intros [= <-]. exists c. now rewrite Nat.add_0_r.
    + intros H. apply IH in H. destruct H as [c' [Hc' ->]].
      exists c'. split; [exact Hc'|]. now rewrite Nat.add_succ_r.
Qed.

(** X25: the decay schedule lists each active container exactly as
    often as the table holds it, and no other, in ascending order of
    the decay date. *)
Theorem decay_schedule_sorted (st : State) (clock : nat -> datetime) :
  Sorted (fun e1 e2 => (ScheduleEntry.safe_decay_date e1
                        <= ScheduleEntry.safe_decay_date e2)%Z)
         (decay_schedule st clock) /\
  Permutation (map ScheduleEntry.container_id (decay_schedule st clock))
              (map WasteContainer.id (filter is_active (containers st))).
Proof.
  unfold decay_schedule. split.
  - apply schedule_entries_sorted, order_by_decay_date_sorted.
  - rewrite schedule_entries_ids. apply Permutation_map.
    apply order_by_decay_date_perm.
Qed.

(** X26: entry number [i] of the decay schedule describes an active
    container of the table: it carries its id, its label, its stored
    [activity_bq] (not a decay-corrected value) and its [decay_date], and
    [days_until_safe] is the whole number of days, rounded down, from the
    clock reading made for this entry to the decay date; it is negative
    exactly when the decay date lies before that reading. *)
Theorem decay_schedule_entry (st : State) (clock : nat -> datetime)
    (i : nat) (e : ScheduleEntry.t) :
  nth_error (decay_schedule st clock) i = Some e ->
  exists c, In c (containers st) /\ is_active c = true /\
    ScheduleEntry.container_id e = WasteContainer.id c /\
    ScheduleEntry.label e = WasteContainer.label c /\
    ScheduleEntry.current_activity_bq e = WasteContainer.activity_bq c /\
    ScheduleEntry.safe_decay_date e = WasteContainer.decay_date c /\
    ScheduleEntry.days_until_safe e
    = ((WasteContainer.decay_date c - clock i) / Datetime.US_PER_DAY)%Z /\
    ((ScheduleEntry.days_until_safe e < 0)%Z <->
     (WasteContainer.decay_date c < clock i)%Z).
Proof.
  unfold decay_schedule. intros H. apply schedule_entries_nth in H.
  destruct H as [c [Hc ->]]. exists c. apply nth_error_In in Hc.
  apply (Permutation_in _ (order_by_decay_date_perm _)) in Hc.
  apply filter_In in Hc. destruct Hc as [Hin Hact].
  simpl. repeat (split; [assumption || reflexivity|]).
  unfold Datetime.days, Datetime.sub. split.
  - intros Hneg.
    destruct (Z_lt_le_dec (WasteContainer.decay_date c) (clock i)) as [|Hge];
      [assumption|].
    assert (0 <= (WasteContainer.decay_date c - clock i)
                 / Datetime.US_PER_DAY)%Z
      by (apply Z.div_pos; [lia | reflexivity]).
    lia.
  - intros Hlt. apply Z.div_lt_upper_bound; [reflexivity | lia].
Qed.

Lemma decay_schedule_entry_witness :
  exists c, In c (containers db3) /\ is_active c = true /\
    ScheduleEntry.container_id
      (ScheduleEntry.mk "0a1b2c3d" "crate" 2000
         (now0 + 365 * Datetime.US_PER_DAY)%Z 365)
    = WasteContainer.id c /\
    ScheduleEntry.label
      (ScheduleEntry.mk "0a1b2c3d" "crate" 2000
         (now0 + 365 * Datetime.US_PER_DAY)%Z 365)
    = WasteContainer.label c /\
    ScheduleEntry.current_activity_bq
      (ScheduleEntry.mk "0a1b2c3d" "crate" 2000
         (now0 + 365 * Datetime.US_PER_DAY)%Z 365)
    = WasteContainer.activity_bq c /\
    ScheduleEntry.safe_decay_date
      (ScheduleEntry.mk "0a1b2c3d" "crate" 2000
         (now0 + 365 * Datetime.US_PER_DAY)%Z 365)
    = WasteContainer.decay_date c /\
    ScheduleEntry.days_until_safe
      (ScheduleEntry.mk "0a1b2c3d" "crate" 2000
         (now0 + 365 * Datetime.US_PER_DAY)%Z 365)
    = ((WasteContainer.decay_date c - now0) / Datetime.US_PER_DAY)%Z /\
    ((ScheduleEntry.days_until_safe
        (ScheduleEntry.mk "0a1b2c3d" "crate" 2000
           (now0 + 365 * Datetime.US_PER_DAY)%Z 365) < 0)%Z <->
     (WasteContainer.decay_date c < now0)%Z).
Proof.
  apply (decay_schedule_entry db3 (fun _ => now0) 0). reflexivity.
Defined.

(** ** The estimate against the decay-corrected activity *)

Lemma Rpower_half_strict (x y : R) : x < y -> Rpower 0.5 y < Rpower 0.5 x.
Proof.
  intros Hxy. unfold Rpower.
  assert (Hln : ln 0.5 < 0).
  { rewrite <- ln_1. apply ln_increasing; lra. }
  apply exp_increasing. nra.
Qed.

(** [0.5 ** log2(x)] is [1 / x]. *)
Lemma Rpower_half_log2 (x : R) : 0 < x -> Rpower 0.5 (ln x / ln 2) = / x.
Proof.
  intros Hx. unfold Rpower. pose proof ln_2_pos as H2.
  replace 0.5 with (/ 2) by lra. rewrite ln_Rinv by lra.
  replace (ln x / ln 2 * - ln 2) with (- ln x) by (field; lra).
  rewrite exp_Ropp, exp_ln by exact Hx. reflexivity.
Qed.

(** The whole days of a delay of [y] years of 365 days, rounded to the
    microsecond, are fewer than [y] years of 365.25 days. *)
Lemma whole_days_short_of_years (y : R) :
  0 < y ->
  IZR (Datetime.round_half_even (y * 365 * IZR Datetime.US_PER_DAY)
       / Datetime.US_PER_DAY) / 365.25 < y.
Proof.
  intros Hy.
  assert (HUS : IZR Datetime.US_PER_DAY = 86400000000) by reflexivity.
  set (u := y * 365 * IZR Datetime.US_PER_DAY).
  assert (Hu : u = y * 365 * 86400000000) by (unfold u; now rewrite HUS).
  pose proof (round_half_even_near u) as [_ Hup].
  assert (H0 : (0 <= Datetime.round_half_even u)%Z).
  { apply round_half_even_lub. rewrite Hu. nra. }
  set (D := (Datetime.round_half_even u / Datetime.US_PER_DAY)%Z).
  assert (HD : (D * Datetime.US_PER_DAY <= Datetime.round_half_even u)%Z).
  { unfold D. rewrite Z.mul_comm. apply Z.mul_div_le. reflexivity. }
  apply IZR_le in HD. rewrite mult_IZR, HUS in HD.
  destruct (Rle_dec y (2 / 86400000000)) as [Hsmall | Hbig].
  - assert (Hr : (Datetime.round_half_even u < Datetime.US_PER_DAY)%Z).
    { apply lt_IZR. rewrite HUS. lra. }
    assert (HD0 : D = 0%Z) by (unfold D; now apply Z.div_small).
    rewrite HD0. lra.
  - apply Rmult_lt_reg_r with 365.25; [lra|].
    unfold Rdiv at 1. rewrite Rmult_assoc, Rinv_l by lra. lra.
Qed.

(** X27: the estimate counts years of 365 days, the decay correction
    years of 365.25 days and only whole days.  So for a container with a
    single isotope and more than 1000 Bq whose decay date was estimated at
    its [created_at], the decay-corrected activity read at the decay
    date is still above the safe threshold of 1000 Bq. *)
Theorem decay_date_is_early (st : State) (container_id iso : string)
    (c : WasteContainer.t) :
  select_container st container_id = Some c ->
  WasteContainer.isotopes c = [iso] ->
  1000 < WasteContainer.activity_bq c ->
  _calc_decay_date [iso] (WasteContainer.activity_bq c)
    (WasteContainer.created_at c) = Ok (WasteContainer.decay_date c) ->
  1000 < decay_correct st (WasteContainer.decay_date c) container_id.
Proof.
  intros Hc Hiso Ha Hd. unfold decay_correct. rewrite Hc, Hiso.
  set (a := WasteContainer.activity_bq c) in *.
  set (t := WasteContainer.created_at c) in *.
  pose proof (half_life_pos iso) as Hh.
  pose proof ln_2_pos as H2.
  assert (HL : 0 < ln (a / 1000)).
  { rewrite <- ln_1. apply ln_increasing; lra. }
  set (y := half_life iso * ln (a / 1000) / ln 2).
  assert (Hy : 0 < y).
  { unfold y. apply Rmult_lt_0_compat; [nra|]. now apply Rinv_0_lt_compat. }
  assert (Hr : WasteContainer.decay_date c
               = (t + Datetime.round_half_even
                        (y * 365 * IZR Datetime.US_PER_DAY))%Z).
  { unfold _calc_decay_date in Hd.
    destruct (Rle_dec a SAFE_THRESHOLD) as [H | _];
      [unfold SAFE_THRESHOLD in H; lra|].
    unfold Datetime.of_float_days in Hd.
    destruct (Datetime.of_us _) as [d|] eqn:E in Hd; [|discriminate].
    simpl in Hd. apply datetime_add_ok in Hd. destruct Hd as [-> _].
    apply timedelta_of_us_ok in E. subst d. reflexivity. }
  rewrite Hr. unfold Datetime.days, Datetime.sub.
  replace (t + Datetime.round_half_even (y * 365 * IZR Datetime.US_PER_DAY)
           - t)%Z
    with (Datetime.round_half_even (y * 365 * IZR Datetime.US_PER_DAY))
    by lia.
  pose proof (whole_days_short_of_years y Hy) as Hdays.
  replace (py_sum (map half_life [iso]) / INR (List.length [iso]))
    with (half_life iso) by (unfold py_sum; simpl; field).
  assert (Hexp : IZR (Datetime.round_half_even
                        (y * 365 * IZR Datetime.US_PER_DAY)
                      / Datetime.US_PER_DAY) / 365.25 / half_life iso
                 < ln (a / 1000) / ln 2).
  { apply Rmult_lt_reg_r with (half_life iso); [exact Hh|].
    unfold Rdiv at 1. rewrite Rmult_assoc, Rinv_l, Rmult_1_r by lra.
    replace (ln (a / 1000) / ln 2 * half_life iso) with y
      by (unfold y; field; lra).
    exact Hdays. }
  apply Rpower_half_strict in Hexp.
  rewrite Rpower_half_log2 in Hexp by lra.
  apply Rmult_lt_compat_l with (r := a) in Hexp; [|lra].
  replace (a * / (a / 1000)) with 1000 in Hexp by (field; lra).
  exact Hexp.
Qed.

Lemma caesium_estimate :
  _calc_decay_date ["Cs-137"] 1e9 now0 = Ok caesium_decay_date.
Proof.
  pose proof log2_million as [Hlo Hhi].
  assert (Hh : py_max (half_life "Cs-137") (map half_life []) = 30.17).
  { unfold py_max, half_life, HALF_LIVES. simpl. reflexivity. }
  assert (Hy : py_max (half_life "Cs-137") (map half_life [])
               * ln (1e9 / SAFE_THRESHOLD) / ln 2
               = 30.17 * (ln 1e6 / ln 2)).
  { rewrite Hh. unfold SAFE_THRESHOLD.
    replace (1e9 / 1000) with 1e6 by lra. unfold Rdiv. ring. }
  assert (HUS : IZR Datetime.US_PER_DAY = 86400000000) by reflexivity.
  assert (Hnow : IZR now0 = 739922 * 86400000000).
  { unfold now0. rewrite mult_IZR, HUS. reflexivity. }
  assert (HMAX : IZR Datetime.MAX = 3652059 * 86400000000 - 1).
  { unfold Datetime.MAX. rewrite minus_IZR, mult_IZR, HUS. reflexivity. }
  unfold caesium_decay_date. apply _calc_decay_date_in_range.
  - unfold SAFE_THRESHOLD. lra.
  - vm_compute. discriminate.
  - rewrite Hy, HUS, Hnow, HMAX. nra.
Qed.

Lemma decay_date_is_early_witness :
  1000 < decay_correct db5 (WasteContainer.decay_date cask0) "feedface".
Proof.
  apply (decay_date_is_early db5 "feedface" "Cs-137" cask0).
  - reflexivity.
  - reflexivity.
  - simpl. lra.
  - exact caesium_estimate.
Defined.

(** ** Operations in sequence *)

(** X28: in a database reached by registrations and transfers, the
    transfer just made has the number of transfers as its id, and its
    manifest joins what the call was given (destination, actor, time)
    and the location the container had with the container's label, waste
    type, isotopes, activity, volume and mass. *)
Theorem manifest_of_new_transfer (st st' : State) (now now' : datetime)
    (container_id to_location transferred_by : string)
    (c : WasteContainer.t) :
  reachable st -> select_container st container_id = Some c ->
  transfer st now container_id to_location transferred_by = (st', true) ->
  generate_manifest st' now' (Z.of_nat (List.length (transfers st')))
  = ManifestText
      (Manifest.mk now' container_id
         (WasteContainer.label c) (WasteContainer.waste_type c)
         (WasteContainer.isotopes c) (WasteContainer.activity_bq c)
         (WasteContainer.volume_l c) (WasteContainer.mass_kg c)
         (WasteContainer.location c) to_location transferred_by now
         (Z.of_nat (List.length (transfers st')))).
Proof.
  intros Hr Hc H. apply transfer_inv in H.
  destruct H as [[_ [_ H]] | [c0 [Hc0 [_ ->]]]]; [discriminate|].
  rewrite Hc in Hc0. injection Hc0 as <-.
  pose proof (reachable_transfer_keys st Hr) as Hkeys.
  assert (Hnext : next_transfer_id st
                  = Z.of_nat (List.length (transfers st) + 1)).
  { unfold next_transfer_id. rewrite Hkeys, fold_max_seq. lia. }
  cbn [transfers]. rewrite length_app. simpl List.length.
  unfold generate_manifest.
  assert (Ht : select_transfer
                 (mkState
                    (map (update_location container_id to_location)
                         (containers st))
                    (transfers st
                     ++ [(next_transfer_id st,
                          TransferRecord.mk container_id
                            (WasteContainer.location c) to_location
                            transferred_by now false)])%list)
                 (Z.of_nat (List.length (transfers st) + 1))
               = Some (TransferRecord.mk container_id
                         (WasteContainer.location c) to_location
                         transferred_by now false)).
  { unfold select_transfer. cbn [transfers]. rewrite find_over_app.
    destruct (find _ (transfers st)) as [r|] eqn:E.
    - exfalso. apply find_some in E. destruct E as [Hin Heq].
      apply Z.eqb_eq in Heq.
      assert (Hk : In (fst r) (map fst (transfers st))) by now apply in_map.
      rewrite Hkeys in Hk. apply in_map_iff in Hk.
      destruct Hk as [n [Hn Hseq]]. apply in_seq in Hseq. lia.
    - simpl. rewrite Hnext, Z.eqb_refl. reflexivity. }
  rewrite Ht. cbn [TransferRecord.container_id].
  unfold select_container in *. cbn [containers].
  rewrite select_after_update, Hc. simpl.
  unfold update_location. apply find_some in Hc. destruct Hc as [_ Hid].
  rewrite Hid. reflexivity.
Qed.

Lemma manifest_of_new_transfer_witness :
  generate_manifest db4 now0 (Z.of_nat (List.length (transfers db4)))
  = ManifestText
      (Manifest.mk now0 "0a1b2c3d"
         (WasteContainer.label crate0) (WasteContainer.waste_type crate0)
         (WasteContainer.isotopes crate0) (WasteContainer.activity_bq crate0)
         (WasteContainer.volume_l crate0) (WasteContainer.mass_kg crate0)
         (WasteContainer.location crate0) "Vault C" "bob" now0
         (Z.of_nat (List.length (transfers db4)))).
Proof.
  apply (manifest_of_new_transfer db3 db4 now0 now0 "0a1b2c3d" "Vault C"
           "bob" crate0).
  - exact reachable_db3.
  - reflexivity.
  - reflexivity.
Defined.

(** X29: a successful registration adds the container's activity to
    the global total and to the total of its location (when this is
    not the empty string), and leaves the totals of the other locations
    as they were. *)
Theorem register_adds_activity (st st' : State) (uuid8 : string)
    (created_now decay_now : datetime) (label waste_type : string)
    (isotopes : list string) (a v m : R) (location storage_class cid : string) :
  register_container st uuid8 created_now decay_now label waste_type isotopes
    a v m location storage_class = Ok (st', cid) ->
  total_activity st' None = total_activity st None + a /\
  (location <> "" ->
   total_activity st' (Some location) = total_activity st (Some location) + a)
  /\
  (forall l, l <> "" -> l <> location ->
     total_activity st' (Some l) = total_activity st (Some l)).
Proof.
  intros H. apply register_container_inv in H.
  destruct H as [d [_ [_ [_ ->]]]].
  assert (Htot : forall loc,
            total_activity
              (mkState
                 (containers st
                  ++ [WasteContainer.mk uuid8 label waste_type isotopes a v m
                        location storage_class created_now d "active"])%list
                 (transfers st)) loc
            = total_activity st loc
              + (if and_where is_active WasteContainer.location loc
                      (WasteContainer.mk uuid8 label waste_type isotopes a v
                         m location storage_class created_now d "active")
                 then a else 0)).
  { intros loc. rewrite !total_activity_inventory, !inventory_unfiltered.
    cbn [containers]. rewrite filter_app, map_app, py_sum_app. simpl.
    destruct (and_where _ _ _ _); simpl; [rewrite py_sum_cons|];
      unfold py_sum; simpl; ring. }
  assert (Hne : forall l, l <> "" -> truthy l = true).
  { intros l Hl. unfold truthy. apply String.eqb_neq in Hl. now rewrite Hl. }
  split; [|split].
  - rewrite Htot. reflexivity.
  - intros Hloc. rewrite Htot. unfold and_where. rewrite (Hne _ Hloc).
    simpl. now rewrite String.eqb_refl.
  - intros l Hl Hdiff. rewrite Htot. unfold and_where. rewrite (Hne _ Hl).
    simpl. apply not_eq_sym, String.eqb_neq in Hdiff. rewrite Hdiff. ring.
Qed.

Lemma register_adds_activity_witness :
  total_activity db3 None = total_activity empty_db None + 2000 /\
  ("Dock" <> "" ->
   total_activity db3 (Some "Dock") = total_activity empty_db (Some "Dock")
                                      + 2000)
  /\
  (forall l, l <> "" -> l <> "Dock" ->
     total_activity db3 (Some l) = total_activity empty_db (Some l)).
Proof.
  apply (register_adds_activity empty_db db3 "0a1b2c3d" now0 now0 "crate"
           "low_level" [] 2000 50 40 "Dock" "low_level" "0a1b2c3d").
  reflexivity.
Defined.
